(** * Web Live Annotator (src/app.py): frame grabber, recorder, session

    A shallow embedding of the classes [FrameGrabber], [Recorder] and
    [Session] of src/app.py and of the request handlers [annotate],
    [start_session] and [stop_and_quit], with the properties of the
    specification stated over them.

    Conventions of the embedding.
    - A Python [str] is a list of Unicode code points ([pystr]).
    - A Python [float] holding a time in seconds (a reading of
      [time.perf_counter()], a duration, a frame rate) is a rational [Q];
      arithmetic on it is exact.
    - What the code reads from its surroundings (the clocks, the working
      directory, the answers of the capture device, of the encoder) is an
      explicit argument of the operation that reads it.
    - What the code does to its surroundings (sleeping, launching a thread,
      creating a directory, writing a file) is returned as a list of [effect]. *)

From Stdlib Require Import List Bool NArith ZArith QArith Qminmax Qround String Ascii Lia Lqa.
From Stdlib Require Import Sorted.
Import ListNotations.

Local Open Scope Q_scope.

(* ------------------------------------------------------------------ *)
(** ** Python strings *)

Module PyStr.

Definition pystr := list N.

(** Code points of an ASCII literal. *)
Fixpoint u (s : string) : pystr :=
  match s with
  | EmptyString => []
  | String a s' => N_of_ascii a :: u s'
  end.

Definition between (lo hi c : N) : bool := (N.leb lo c && N.leb c hi)%bool.

(** [str.isspace] of one code point (CPython's [_PyUnicode_IsWhitespace]):
    U+0009..000D, U+001C..001F, U+0020, U+0085, U+00A0, U+1680,
    U+2000..200A, U+2028, U+2029, U+202F, U+205F, U+3000. *)
Definition is_space (c : N) : bool :=
  (between 9 13 c || between 28 31 c || N.eqb c 32 || N.eqb c 133
   || N.eqb c 160 || N.eqb c 5760 || between 8192 8202 c
   || N.eqb c 8232 || N.eqb c 8233 || N.eqb c 8239 || N.eqb c 8287
   || N.eqb c 12288)%bool%N.

Fixpoint lstrip (s : pystr) : pystr :=
  match s with
  | [] => []
  | c :: s' => if is_space c then lstrip s' else s
  end.

Definition rstrip (s : pystr) : pystr := rev (lstrip (rev s)).

(** [str.strip()] with no argument. *)
Definition strip (s : pystr) : pystr := rstrip (lstrip s).

Definition startswith_slash (s : pystr) : bool :=
  match s with
  | c :: _ => N.eqb c 47
  | [] => false
  end.

Definition endswith_slash (s : pystr) : bool := startswith_slash (rev s).

(** [os.path.join(a, b)] of posixpath, two arguments. *)
Definition path_join (a b : pystr) : pystr :=
  if startswith_slash b then b
  else if (match a with [] => true | _ => false end || endswith_slash a)%bool
       then a ++ b
       else a ++ u "/" ++ b.

End PyStr.
Import PyStr.

(* ------------------------------------------------------------------ *)
(** ** Python's two-argument [max] and [min] on floats *)

(** [max(a, b)] keeps [a] unless [b > a]. *)
Definition py_max (a b : Q) : Q := if Qlt_le_dec a b then b else a.

(** [min(a, b)] keeps [a] unless [b < a]. *)
Definition py_min (a b : Q) : Q := if Qlt_le_dec b a then b else a.

(* ------------------------------------------------------------------ *)
(** ** The surroundings *)

(** The clocks and the working directory at the time of a call.
    [utc_iso] is [datetime.now(timezone.utc).isoformat(timespec="milliseconds")],
    [local_stamp] is [datetime.now().strftime("%Y%m%d_%H%M%S")],
    [perf_counter] is [time.perf_counter()], [cwd] is [os.path.abspath(".")]. *)
Record Env := {
  utc_iso : pystr;
  local_stamp : pystr;
  perf_counter : Q;
  cwd : pystr
}.

Definition now_utc_iso (e : Env) : pystr := utc_iso e.

Definition ts_filename (e : Env) (prefix suffix : pystr) : pystr :=
  prefix ++ local_stamp e ++ suffix.

(** A decoded image: [shape[0]], [shape[1]] and the pixel data. *)
Record Frame := { rows : Z; cols : Z; pixels : list Z }.

(** One entry of the annotation timeline: the dict [{"t": ..., "text": ...}]. *)
Record Annotation := { t : Q; text : pystr }.

(** The dict built by [Session.to_json], one field per key. *)
Record Payload := {
  video_source : pystr;
  started_at : option pystr;
  duration_sec : Q;
  annotations_ : list Annotation;
  recording : option pystr
}.

(** An open [cv2.VideoWriter] and the frames written to it so far. *)
Record VideoWriter := {
  vw_path : option pystr;
  vw_fourcc : pystr;
  vw_fps : Q;
  vw_size : Z * Z;
  vw_frames : list Frame
}.

Inductive Loop := GrabberRun | RecorderRun.

(** What an operation does to its surroundings. *)
Inductive effect :=
| Sleep (d : Q)
| MakeDirs (dir : pystr)
| StartThread (target : Loop)
| JoinThread (target : Loop) (timeout : Q)
| ReleaseWriter (w : VideoWriter)
| DumpJson (path : pystr) (payload : Payload)
| StartTimer (delay : Q).

(** Rounding with [round()] of Python 3: to the nearest integer, ties to
    the even one. *)
Definition py_round (x : Q) : Z :=
  let f := Qfloor x in
  let r := x - inject_Z f in
  if Qlt_le_dec r (1 # 2) then f
  else if Qlt_le_dec (1 # 2) r then (f + 1)%Z
  else if Z.even f then f else (f + 1)%Z.

(** The two calls into OpenCV whose result the model cannot compute:
    [cv2.resize(frame, (w, h), interpolation=cv2.INTER_AREA)] and
    [cv2.imencode(".jpg", frame, [IMWRITE_JPEG_QUALITY, quality])], the
    latter returning the pair [(ok, enc.tobytes())]. *)
Class OpenCV := {
  cv_resize : Frame -> Z -> Z -> Frame;
  cv_imencode : Frame -> Z -> bool * list N
}.

(* ------------------------------------------------------------------ *)
(** ** class FrameGrabber *)

Module FrameGrabber.

Inductive Status := Idle | Connecting | Streaming | Error.

Definition status_eqb (a b : Status) : bool :=
  match a, b with
  | Idle, Idle | Connecting, Connecting
  | Streaming, Streaming | Error, Error => true
  | _, _ => false
  end.

(** An open [cv2.VideoCapture]. *)
Record Capture := { cap_source : pystr }.

(** The state of the object. [thread] is [None] as long as no thread was
    made, and otherwise tells whether the thread made last is alive. *)
Record state := {
  source : pystr;
  reconnect_delay : Q;
  desired_width : option Z;
  _cap : option Capture;
  _thread : option bool;
  _stop_evt : bool;
  _latest_bgr : option Frame;
  _status : Status
}.

(** [FrameGrabber(source, reconnect_delay, desired_width)] *)
Definition init (src : pystr) (delay : Q) (width : option Z) : state :=
  {| source := src; reconnect_delay := delay; desired_width := width;
     _cap := None; _thread := None; _stop_evt := false;
     _latest_bgr := None; _status := Idle |}.

Definition set_status (s : Status) (g : state) : state :=
  {| source := source g; reconnect_delay := reconnect_delay g;
     desired_width := desired_width g; _cap := _cap g;
     _thread := _thread g; _stop_evt := _stop_evt g;
     _latest_bgr := _latest_bgr g; _status := s |}.

Definition set_cap (c : option Capture) (g : state) : state :=
  {| source := source g; reconnect_delay := reconnect_delay g;
     desired_width := desired_width g; _cap := c;
     _thread := _thread g; _stop_evt := _stop_evt g;
     _latest_bgr := _latest_bgr g; _status := _status g |}.

Definition set_latest (f : option Frame) (g : state) : state :=
  {| source := source g; reconnect_delay := reconnect_delay g;
     desired_width := desired_width g; _cap := _cap g;
     _thread := _thread g; _stop_evt := _stop_evt g;
     _latest_bgr := f; _status := _status g |}.

Definition set_thread (th : option bool) (stop : bool) (g : state) : state :=
  {| source := source g; reconnect_delay := reconnect_delay g;
     desired_width := desired_width g; _cap := _cap g;
     _thread := th; _stop_evt := stop;
     _latest_bgr := _latest_bgr g; _status := _status g |}.

(** What the acquisition thread does that another thread can see, in the
    order it happens: a write of [_status], a [time.sleep], a replacement
    of [_latest_bgr]. *)
Inductive event :=
| SetStatus (s : Status)
| Publish (f : Frame)
| Do (e : effect).

(** The answers of the capture device during one pass of the loop of
    [_run]: [opened] is [cap.isOpened()] of a [cv2.VideoCapture] made in
    this pass (consulted only when one is made), [read_ok] and [read_frame]
    are the pair returned by [self._cap.read()] (consulted only when the
    pass reaches it). *)
Record Answers := {
  opened : bool;
  read_ok : bool;
  read_frame : option Frame
}.

Definition _release_cap (g : state) : state :=
  match _cap g with
  | Some _ => set_cap None g
  | None => g
  end.

(** [_open_cap]: the result, the new state, the status writes made. The
    read of line 74 changes nothing in the object and its result is
    dropped. *)
Definition _open_cap (is_opened : bool) (g : state) : bool * state * list event :=
  let g1 := set_status Connecting g in
  if negb is_opened then
    (false, set_status Error g1, [SetStatus Connecting; SetStatus Error])
  else
    let g2 := set_cap (Some {| cap_source := source g1 |}) g1 in
    (true, set_status Streaming g2, [SetStatus Connecting; SetStatus Streaming]).

Section WithOpenCV.
Context {cv : OpenCV}.

(** Lines 91-94: bring the frame to [desired_width], keeping the aspect
    (a frame has at least one column). *)
Definition fit_width (g : state) (f : Frame) : Frame :=
  match desired_width g with
  | Some w =>
      if (negb (Z.eqb w 0) && negb (Z.eqb (cols f) w))%bool then
        let scale := inject_Z w / inject_Z (cols f) in
        let h := py_round (inject_Z (rows f) * scale) in
        cv_resize f w h
      else f
  | None => f
  end.

(** Lines 85-96: the read and what follows it, once a capture is open. *)
Definition read_step (a : Answers) (g : state) : state * list event :=
  match read_ok a, read_frame a with
  | true, Some f =>
      let f' := fit_width g f in
      (set_latest (Some f') g, [Publish f'])
  | _, _ =>
      (_release_cap (set_status Error g),
       [SetStatus Error; Do (Sleep (reconnect_delay g))])
  end.

(** One pass of the body of the [while] loop of [_run]. *)
Definition run_iter (a : Answers) (g : state) : state * list event :=
  match _cap g with
  | None =>
      let '(ok, g1, ev) := _open_cap (opened a) g in
      if negb ok then (g1, ev ++ [Do (Sleep (reconnect_delay g1))])
      else let '(g2, ev2) := read_step a g1 in (g2, ev ++ ev2)
  | Some _ => read_step a g
  end.

(** [_run]: one pass per element of [answers], as long as the stop event
    is not set. *)
Fixpoint _run (answers : list Answers) (g : state) : state * list event :=
  match answers with
  | [] => (g, [])
  | a :: rest =>
      if _stop_evt g then (g, [])
      else
        let '(g1, ev1) := run_iter a g in
        let '(g2, ev2) := _run rest g1 in
        (g2, ev1 ++ ev2)
  end.

(** [get_latest_frame]: a copy of the slot. *)
Definition get_latest_frame (g : state) : option Frame := _latest_bgr g.

(** [get_latest_jpeg(quality)] *)
Definition get_latest_jpeg (quality : Z) (g : state) : option (list N) :=
  match get_latest_frame g with
  | None => None
  | Some frame =>
      let '(ok, enc) := cv_imencode frame quality in
      if negb ok then None else Some enc
  end.

End WithOpenCV.

(** The [status] property. *)
Definition status (g : state) : Status := _status g.

(** [start]: launches [_run] unless its thread is alive. *)
Definition start (g : state) : state * list effect :=
  match _thread g with
  | Some true => (g, [])
  | _ => (set_thread (Some true) false g, [StartThread GrabberRun])
  end.

(** [stop]: sets the stop event, joins the thread if there is one, releases
    the capture. [joined] tells whether the thread ended within the 2 s of
    the join. *)
Definition stop (joined : bool) (g : state) : state * list effect :=
  match _thread g with
  | Some alive =>
      (_release_cap (set_thread (Some (alive && negb joined)%bool) true g),
       [JoinThread GrabberRun 2])
  | None => (_release_cap (set_thread None true g), [])
  end.

End FrameGrabber.

(* ------------------------------------------------------------------ *)
(** ** class Recorder *)

Module Recorder.

(** The attribute [src] refers to the one [FrameGrabber] of the
    application, which its own thread keeps changing: the state the
    grabber has when the write loop looks at it is an argument of the
    loop ([run_iter]) and not a field. *)
Record state := {
  fps : Q;
  out_dir : pystr;
  prefix : pystr;
  path : option pystr;
  _writer : option VideoWriter;
  _thread : bool;
  _stop_evt : bool;
  _active : bool
}.

(** [Recorder(frame_source, fps, out_dir, prefix)] *)
Definition init (fps0 : Q) (dir pre : pystr) : state :=
  {| fps := fps0; out_dir := dir; prefix := pre; path := None;
     _writer := None; _thread := false; _stop_evt := false; _active := false |}.

Definition set_writer (w : option VideoWriter) (r : state) : state :=
  {| fps := fps r; out_dir := out_dir r; prefix := prefix r; path := path r;
     _writer := w; _thread := _thread r; _stop_evt := _stop_evt r;
     _active := _active r |}.

(** [start] *)
Definition start (e : Env) (r : state) : state * list effect :=
  if _active r then (r, [])
  else
    ({| fps := fps r; out_dir := out_dir r; prefix := prefix r;
        path := Some (path_join (out_dir r) (ts_filename e (prefix r) (u ".mp4")));
        _writer := _writer r; _thread := true; _stop_evt := false;
        _active := true |},
     [MakeDirs (out_dir r); StartThread RecorderRun]).

(** [stop] *)
Definition stop (r : state) : state * list effect :=
  if negb (_active r) then (r, [])
  else
    let joins := if _thread r then [JoinThread RecorderRun 2] else [] in
    let releases :=
      match _writer r with
      | Some w => [ReleaseWriter w]
      | None => []
      end in
    ({| fps := fps r; out_dir := out_dir r; prefix := prefix r;
        path := path r; _writer := None; _thread := _thread r;
        _stop_evt := true; _active := false |},
     joins ++ releases).

(** The [active] property. *)
Definition active (r : state) : bool := _active r.

(** [_open_writer_if_needed(frame)] *)
Definition _open_writer_if_needed (frame : Frame) (r : state) : state :=
  match _writer r with
  | Some _ => r
  | None =>
      let h := rows frame in
      let w := cols frame in
      set_writer (Some {| vw_path := path r; vw_fourcc := u "mp4v";
                          vw_fps := fps r; vw_size := (w, h);
                          vw_frames := [] |}) r
  end.

(** [self._writer.write(frame)], guarded by [self._writer is not None]. *)
Definition write (frame : Frame) (r : state) : state :=
  match _writer r with
  | Some w =>
      set_writer (Some {| vw_path := vw_path w; vw_fourcc := vw_fourcc w;
                          vw_fps := vw_fps w; vw_size := vw_size w;
                          vw_frames := vw_frames w ++ [frame] |}) r
  | None => r
  end.

(** [target_dt = 1.0 / max(1e-6, self.fps)] *)
Definition target_dt (r : state) : Q := 1 / py_max (1 # 1000000) (fps r).

(** What one pass of the write loop reads: the grabber as it is when the
    pass asks it for a frame, [time.perf_counter()] of line 174 and
    [time.perf_counter()] of line 178 (read only when the pass gets there). *)
Record Tick := {
  grabber : FrameGrabber.state;
  now_after_write : Q;
  now_on_reset : Q
}.

(** One pass of the body of the [while] loop of [_run]: the recorder, the
    next scheduled time, what the pass did. *)
Definition run_iter (k : Tick) (r : state) (next_t : Q) : state * Q * list effect :=
  match FrameGrabber.get_latest_frame (grabber k) with
  | None => (r, next_t, [Sleep (1 # 100)])
  | Some frame =>
      let r1 := _open_writer_if_needed frame r in
      let r2 := write frame r1 in
      let next_t1 := next_t + target_dt r in
      let sleep_for := next_t1 - now_after_write k in
      if Qlt_le_dec 0 sleep_for
      then (r2, next_t1, [Sleep (py_min sleep_for (1 # 5))])
      else (r2, now_on_reset k, [])
  end.

Fixpoint loop (ticks : list Tick) (r : state) (next_t : Q) : state * Q * list effect :=
  match ticks with
  | [] => (r, next_t, [])
  | k :: rest =>
      if _stop_evt r then (r, next_t, [])
      else
        let '(r1, n1, ef1) := run_iter k r next_t in
        let '(r2, n2, ef2) := loop rest r1 n1 in
        (r2, n2, ef1 ++ ef2)
  end.

(** [_run]: [now0] is [time.perf_counter()] of line 164. *)
Definition _run (now0 : Q) (ticks : list Tick) (r : state) : state * Q * list effect :=
  loop ticks r now0.

End Recorder.

(* ------------------------------------------------------------------ *)
(** ** class Session *)

Module Session.

Record state := {
  source : pystr;
  started_at_iso : option pystr;
  t0_monotonic : option Q;
  annotations : list Annotation;
  recorder : option Recorder.state;
  recording_path : option pystr
}.

(** [Session(source)] *)
Definition init (src : pystr) : state :=
  {| source := src; started_at_iso := None; t0_monotonic := None;
     annotations := []; recorder := None; recording_path := None |}.

Definition set_annotations (l : list Annotation) (s : state) : state :=
  {| source := source s; started_at_iso := started_at_iso s;
     t0_monotonic := t0_monotonic s; annotations := l;
     recorder := recorder s; recording_path := recording_path s |}.

Definition set_recorder (r : option Recorder.state) (s : state) : state :=
  {| source := source s; started_at_iso := started_at_iso s;
     t0_monotonic := t0_monotonic s; annotations := annotations s;
     recorder := r; recording_path := recording_path s |}.

(** [start(recorder)] *)
Definition start (e : Env) (rec : Recorder.state) (s : state) : state * list effect :=
  let '(rec1, ef) := Recorder.start e rec in
  ({| source := source s;
      started_at_iso := Some (now_utc_iso e);
      t0_monotonic := Some (perf_counter e);
      annotations := [];
      recorder := Some rec1;
      recording_path := Recorder.path rec1 |}, ef).

(** [elapsed()] *)
Definition elapsed (e : Env) (s : state) : Q :=
  match t0_monotonic s with
  | None => 0
  | Some t0 => py_max 0 (perf_counter e - t0)
  end.

(** [add(text)]: the item returned and the session after the call. *)
Definition add (e : Env) (txt : pystr) (s : state) : Annotation * state :=
  let item := {| t := elapsed e s; text := txt |} in
  (item, set_annotations (annotations s ++ [item]) s).

(** [list.pop()] on a list that may be empty: the last element and the rest. *)
Fixpoint pop {A : Type} (l : list A) : option (A * list A) :=
  match l with
  | [] => None
  | x :: l' =>
      match pop l' with
      | None => Some (x, [])
      | Some (y, r) => Some (y, x :: r)
      end
  end.

(** [undo()] *)
Definition undo (s : state) : option Annotation * state :=
  match pop (annotations s) with
  | None => (None, s)
  | Some (a, rest) => (Some a, set_annotations rest s)
  end.

(** [to_json()] *)
Definition to_json (e : Env) (s : state) : Payload :=
  {| video_source := source s;
     started_at := started_at_iso s;
     duration_sec := elapsed e s;
     annotations_ := annotations s;
     recording := recording_path s |}.

End Session.

(* ------------------------------------------------------------------ *)
(** ** create_app and the handlers that drive the session *)

Module App.

(** The objects the handlers close over. *)
Record state := {
  grabber : FrameGrabber.state;
  session : Session.state;
  fps : Q
}.

(** What a handler answers: the JSON body and the HTTP status. *)
Inductive response :=
| Started (started_at0 recording_path0 : option pystr)
| Item (a : Annotation)
| Failure (code : Z) (error : pystr)
| Stopped (json_path : pystr) (video_path : option pystr)
          (count : nat) (duration : Q).

(** [create_app(source, width, fps)] up to the definition of the routes. *)
Definition create_app (src : pystr) (width : option Z) (fps0 : Q)
  : state * list effect :=
  let '(g, ef) := FrameGrabber.start (FrameGrabber.init src 1 width) in
  ({| grabber := g; session := Session.init src; fps := fps0 |}, ef).

(** [POST /start] *)
Definition start_session (e : Env) (a : state) : response * state * list effect :=
  let rec := Recorder.init (fps a) (u ".") (u "recording_") in
  let '(s1, ef) := Session.start e rec (session a) in
  (Started (Session.started_at_iso s1) (Session.recording_path s1),
   {| grabber := grabber a; session := s1; fps := fps a |}, ef).

(** [POST /annotate]. [submitted] is [str(v)] for the value [v] of the key
    "text" of the request's JSON object, [None] when the key (or the
    object) is missing, in which case the default [""] is taken. *)
Definition annotate (e : Env) (submitted : option pystr) (a : state)
  : response * state :=
  let txt := strip (match submitted with Some v => v | None => [] end) in
  match txt with
  | [] => (Failure 400 (u "text is empty"), a)
  | _ :: _ =>
      let '(item, s1) := Session.add e txt (session a) in
      (Item item, {| grabber := grabber a; session := s1; fps := fps a |})
  end.

(** [POST /stop]. [joined] tells whether the acquisition thread ended
    within the time [grabber.stop()] waits for it. *)
Definition stop_and_quit (e : Env) (joined : bool) (a : state)
  : response * state * list effect :=
  let '(s1, ef1) :=
    match Session.recorder (session a) with
    | Some r =>
        if Recorder.active r then
          let '(r1, ef) := Recorder.stop r in
          (Session.set_recorder (Some r1) (session a), ef)
        else (session a, [])
    | None => (session a, [])
    end in
  let payload := Session.to_json e s1 in
  let json_path :=
    path_join (cwd e) (ts_filename e (u "annotations_") (u ".json")) in
  let video_path := Session.recording_path s1 in
  let '(g1, ef2) := FrameGrabber.stop joined (grabber a) in
  (Stopped json_path video_path (List.length (annotations_ payload))
           (duration_sec payload),
   {| grabber := g1; session := s1; fps := fps a |},
   ef1 ++ [DumpJson json_path payload] ++ ef2 ++ [StartTimer (1 # 2)]).

(** The JSON object answered by [GET /status], one field per key. *)
Record StatusBody := {
  sb_server_time : pystr;
  sb_grabber_status : FrameGrabber.Status;
  sb_source : pystr;
  sb_started_at : option pystr;
  sb_elapsed : Q;
  sb_count : nat;
  sb_annotations : list Annotation;
  sb_recording : bool;
  sb_recording_path : option pystr
}.

(** [GET /status] *)
Definition status (e : Env) (a : state) : StatusBody :=
  let recording :=
    match Session.recorder (session a) with
    | Some r => if Recorder.active r then Recorder.active r else false
    | None => false
    end in
  {| sb_server_time := now_utc_iso e;
     sb_grabber_status := FrameGrabber.status (grabber a);
     sb_source := Session.source (session a);
     sb_started_at := Session.started_at_iso (session a);
     sb_elapsed := Session.elapsed e (session a);
     sb_count := List.length (Session.annotations (session a));
     sb_annotations := Session.annotations (session a);
     sb_recording := recording;
     sb_recording_path := Session.recording_path (session a) |}.

(** What [GET /snap.jpg] answers. *)
Inductive snap_response :=
| Unavailable (code : Z) (body : pystr)
| Image (jpg : list N) (mimetype : pystr).

(** [GET /snap.jpg] *)
Definition snap {cv : OpenCV} (a : state) : snap_response :=
  match FrameGrabber.get_latest_jpeg 85 (grabber a) with
  | None => Unavailable 503 (u "no frame yet")
  | Some jpg => Image jpg (u "image/jpeg")
  end.

Definition crlf : list N := [13; 10]%N.

(** [sep = f"--{boundary}\r\n".encode("ascii")] with the boundary "frame". *)
Definition sep : list N := u "--frame" ++ crlf.

(** The bytes of one part of the multipart stream (lines 254-256). *)
Definition part (jpg : list N) : list N :=
  sep ++ (u "Content-Type: image/jpeg" ++ crlf ++ crlf) ++ jpg ++ crlf.

(** What the generator of [GET /stream.mjpg] does, in order. *)
Inductive chunk :=
| Yield (bytes : list N)
| Wait (e : effect).

(** One pass of the [while True] loop of [gen], on the grabber as it is
    when the pass asks it for a picture. *)
Definition gen_iter {cv : OpenCV} (g : FrameGrabber.state) : list chunk :=
  match FrameGrabber.get_latest_jpeg 80 g with
  | None => [Wait (Sleep (1 # 20))]
  | Some jpg => [Yield (part jpg); Wait (Sleep (1 # 25))]
  end.

(** [gen]: as many passes as the reader of the stream lets it make. *)
Definition gen {cv : OpenCV} (polls : list FrameGrabber.state) : list chunk :=
  flat_map gen_iter polls.

End App.

(* ------------------------------------------------------------------ *)
(** ** Concrete surroundings used by the examples *)

Module Sample.

Definition env0 : Env :=
  {| utc_iso := u "2024-05-01T10:00:00.000+00:00";
     local_stamp := u "20240501_120000";
     perf_counter := 100;
     cwd := u "/srv/annotator" |}.

Definition env1 : Env :=
  {| utc_iso := u "2024-05-01T10:00:07.500+00:00";
     local_stamp := u "20240501_120007";
     perf_counter := 215 # 2;
     cwd := u "/srv/annotator" |}.

Definition frame0 : Frame := {| rows := 480; cols := 640; pixels := [0; 0; 0]%Z |}.

Definition recorder0 : Recorder.state :=
  Recorder.init 25 (u ".") (u "recording_").

Definition session0 : Session.state := Session.init (u "rtsp://cam/live").

Definition app0 : App.state :=
  fst (App.create_app (u "rtsp://cam/live") (Some 960%Z) 25).

(** A grabber that has published [frame0]. *)
Definition grabber_with_frame : FrameGrabber.state :=
  FrameGrabber.set_latest (Some frame0)
    (FrameGrabber.init (u "rtsp://cam/live") 1 None).

(** An OpenCV whose JPEG encoder reports failure. *)
Definition refusing_codec : OpenCV :=
  {| cv_resize := fun f _ _ => f; cv_imencode := fun _ _ => (false, []) |}.

(** An OpenCV whose JPEG encoder succeeds (with a two-byte stand-in). *)
Definition obliging_codec : OpenCV :=
  {| cv_resize := fun f _ _ => f; cv_imencode := fun _ _ => (true, [255; 216]%N) |}.

(** A recorder with a frame rate below the floor of [target_dt]. *)
Definition slow_recorder : Recorder.state :=
  Recorder.init (1 # 10000000) (u ".") (u "recording_").

(** A pass of the write loop that finds [frame0] and reads the clock at 0. *)
Definition tick0 : Recorder.Tick :=
  {| Recorder.grabber := grabber_with_frame;
     Recorder.now_after_write := 0; Recorder.now_on_reset := 0 |}.

(** A pass of the write loop, 10 ms after the schedule began at 100. *)
Definition tick1 : Recorder.Tick :=
  {| Recorder.grabber := grabber_with_frame;
     Recorder.now_after_write := 10001 # 100;
     Recorder.now_on_reset := 10001 # 100 |}.

(** The device refuses to open. *)
Definition open_fails : FrameGrabber.Answers :=
  {| FrameGrabber.opened := false; FrameGrabber.read_ok := false;
     FrameGrabber.read_frame := None |}.

(** The device opens (if asked to) and delivers [frame0]. *)
Definition delivers : FrameGrabber.Answers :=
  {| FrameGrabber.opened := true; FrameGrabber.read_ok := true;
     FrameGrabber.read_frame := Some frame0 |}.

(** The device opens (if asked to) and the read fails. *)
Definition read_fails : FrameGrabber.Answers :=
  {| FrameGrabber.opened := true; FrameGrabber.read_ok := false;
     FrameGrabber.read_frame := None |}.

Definition grabber0 : FrameGrabber.state :=
  FrameGrabber.init (u "rtsp://cam/live") 1 None.

(** Two notes, taken seven and a half seconds after [env0]. *)
Definition calls0 : list (Env * pystr) := [(env1, u "door"); (env1, u "bell")].

End Sample.

(* ------------------------------------------------------------------ *)
(** ** The status of the grabber as another thread can see it *)

Module StatusTrace.
Import FrameGrabber.

(** The values written to [_status], in order. *)
Fixpoint writes (evs : list event) : list Status :=
  match evs with
  | [] => []
  | SetStatus s :: rest => s :: writes rest
  | _ :: rest => writes rest
  end.

(** Whether a pass of the loop ends with a frame published: a capture is
    open or opens, and the read delivers a frame. *)
Definition pass_succeeds (a : Answers) (g : state) : bool :=
  ((match _cap g with Some _ => true | None => opened a end)
   && read_ok a
   && match read_frame a with Some _ => true | None => false end)%bool.

(** Reading a sequence of status values: once [Error] was written, every
    value up to the next [Streaming] is [Error]. [failed] tells whether
    the sequence is read from a failure on. *)
Fixpoint error_held (failed : bool) (ws : list Status) : bool :=
  match ws with
  | [] => true
  | Streaming :: rest => error_held false rest
  | Error :: rest => error_held true rest
  | _ :: rest => (negb failed && error_held failed rest)%bool
  end.

(** The moves of [_status] that the loop makes: an attempt to open begins
    from [Idle] or from [Error] and writes [Connecting]; its outcome writes
    [Error] or [Streaming]; a failed read writes [Error] over [Streaming]. *)
Definition move (from to : Status) : bool :=
  match from, to with
  | Idle, Connecting | Error, Connecting => true
  | Connecting, Error | Connecting, Streaming => true
  | Streaming, Error => true
  | _, _ => false
  end.

Fixpoint moves_from (from : Status) (ws : list Status) : bool :=
  match ws with
  | [] => true
  | w :: rest => (move from w && moves_from w rest)%bool
  end.

(** What holds of the grabber between two passes of its loop. *)
Definition settled (g : state) : Prop :=
  match _cap g with
  | Some _ => _status g = Streaming
  | None => _status g = Idle \/ _status g = Error
  end.

End StatusTrace.

(* ------------------------------------------------------------------ *)
(** ** What the acquisition loop and the write loop leave behind *)

Module Acquired.
Import FrameGrabber.

(** The frames put into [_latest_bgr], in order. *)
Fixpoint published (evs : list event) : list Frame :=
  match evs with
  | [] => []
  | Publish f :: rest => f :: published rest
  | _ :: rest => published rest
  end.

(** The lengths of the sleeps, in order. *)
Fixpoint sleeps (evs : list event) : list Q :=
  match evs with
  | [] => []
  | Do (Sleep d) :: rest => d :: sleeps rest
  | _ :: rest => sleeps rest
  end.

Definition is_open (g : state) : bool :=
  match _cap g with Some _ => true | None => false end.

(** Whether the device hands over a frame when it is read. *)
Definition hands_over (a : Answers) : option Frame :=
  if read_ok a then read_frame a else None.


End Acquired.

Module Recorded.
Import Recorder.

(** The frames written to the open writer. *)
Definition written (r : state) : list Frame :=
  match _writer r with
  | Some w => vw_frames w
  | None => []
  end.

(** The file a writer writes to and how: all of it but the frames. *)
Definition same_file (w w1 : VideoWriter) : Prop :=
  vw_path w1 = vw_path w /\ vw_fourcc w1 = vw_fourcc w /\
  vw_fps w1 = vw_fps w /\ vw_size w1 = vw_size w.

(** The writer [_open_writer_if_needed] makes for [frame], still empty. *)
Definition writer_for (r : state) (frame : Frame) : VideoWriter :=
  {| vw_path := path r; vw_fourcc := u "mp4v"; vw_fps := fps r;
     vw_size := (cols frame, rows frame); vw_frames := [] |}.

(** The frames the write loop finds, one per pass that finds one. *)
Fixpoint seen (ticks : list Tick) : list Frame :=
  match ticks with
  | [] => []
  | k :: rest =>
      match FrameGrabber.get_latest_frame (grabber k) with
      | Some f => f :: seen rest
      | None => seen rest
      end
  end.

End Recorded.

Module Streamed.

(** The parts a run of the generator yields, in order. *)
Fixpoint yielded (cs : list App.chunk) : list (list N) :=
  match cs with
  | [] => []
  | App.Yield b :: rest => b :: yielded rest
  | App.Wait _ :: rest => yielded rest
  end.

(** The sleeps of a run of the generator, in order. *)
Fixpoint waits (cs : list App.chunk) : list effect :=
  match cs with
  | [] => []
  | App.Yield _ :: rest => waits rest
  | App.Wait e :: rest => e :: waits rest
  end.

(** The pictures the grabber can give at the polls, one per poll that
    finds a frame the encoder accepts. *)
Fixpoint encoded {cv : OpenCV} (polls : list FrameGrabber.state)
  : list (list N) :=
  match polls with
  | [] => []
  | g :: rest =>
      match FrameGrabber.get_latest_jpeg 80 g with
      | Some jpg => jpg :: encoded rest
      | None => encoded rest
      end
  end.

End Streamed.

(* ------------------------------------------------------------------ *)
(** ** Sequences of calls on a session *)

Module Timeline.

Inductive call :=
| Start (e : Env) (rec : Recorder.state)
| Add (e : Env) (txt : pystr)
| Undo.

Definition step (c : call) (s : Session.state) : Session.state :=
  match c with
  | Start e rec => fst (Session.start e rec s)
  | Add e txt => snd (Session.add e txt s)
  | Undo => snd (Session.undo s)
  end.

Fixpoint calls (cs : list call) (s : Session.state) : Session.state :=
  match cs with
  | [] => s
  | c :: rest => calls rest (step c s)
  end.

(** The readings of [time.perf_counter()] the calls make, in order. *)
Fixpoint readings (cs : list call) : list Q :=
  match cs with
  | [] => []
  | Start e _ :: rest => perf_counter e :: readings rest
  | Add e _ :: rest => perf_counter e :: readings rest
  | Undo :: rest => readings rest
  end.

(** [n] calls of [undo] in a row: what they return and the session left. *)
Fixpoint undo_n (n : nat) (s : Session.state)
  : list (option Annotation) * Session.state :=
  match n with
  | O => ([], s)
  | S m =>
      let '(r, s1) := Session.undo s in
      let '(rs, s2) := undo_n m s1 in
      (r :: rs, s2)
  end.

Definition earlier (a b : Annotation) : Prop := t a <= t b.

(** A call of [add] for a pair of the surroundings and a text, and the
    annotation it makes on the session [s]. *)
Definition add_of (p : Env * pystr) : call := Add (fst p) (snd p).

Definition item_of (s : Session.state) (p : Env * pystr) : Annotation :=
  {| t := Session.elapsed (fst p) s; text := snd p |}.

(** Surroundings in which [time.perf_counter()] reads [q]. *)
Definition at_clock (q : Q) : Env :=
  {| utc_iso := []; local_stamp := []; perf_counter := q; cwd := [] |}.

(** The annotations are in the order of their times, none of which is
    negative or later than the elapsed time at the reading [b]. *)
Definition in_order_by (b : Q) (s : Session.state) : Prop :=
  StronglySorted earlier (Session.annotations s) /\
  Forall (fun a => 0 <= t a /\ t a <= Session.elapsed (at_clock b) s)
         (Session.annotations s).

End Timeline.

(* ------------------------------------------------------------------ *)
(** ** Lemmas on the Python primitives *)

Lemma py_max_Qmax (a b : Q) : py_max a b == Qmax a b.
Proof.
  unfold py_max. destruct (Qlt_le_dec a b) as [Hlt | Hle].
  - symmetry. apply Q.max_r. apply Qlt_le_weak. exact Hlt.
  - symmetry. apply Q.max_l. exact Hle.
Qed.

Lemma py_min_Qmin (a b : Q) : py_min a b == Qmin a b.
Proof.
  unfold py_min. destruct (Qlt_le_dec b a) as [Hlt | Hle].
  - symmetry. apply Q.min_r. apply Qlt_le_weak. exact Hlt.
  - symmetry. apply Q.min_l. exact Hle.
Qed.

Lemma py_max_mono_r (a b c : Q) : b <= c -> py_max a b <= py_max a c.
Proof.
  intro Hbc. rewrite !py_max_Qmax.
  apply Q.max_le_compat_l. exact Hbc.
Qed.

Lemma pop_snoc {A : Type} (l : list A) (x : A) :
  Session.pop (l ++ [x]) = Some (x, l).
Proof.
  induction l as [| y l IH]; simpl.
  - reflexivity.
  - rewrite IH. reflexivity.
Qed.

(** [lstrip] drops a run of white space and nothing else. *)
Lemma lstrip_split (s : pystr) :
  exists p, s = p ++ lstrip s /\ Forall (fun c => is_space c = true) p.
Proof.
  induction s as [| c s IH]; simpl.
  - exists []. split; [reflexivity | constructor].
  - destruct (is_space c) eqn:Hc.
    + destruct IH as [p [Heq Hp]]. exists (c :: p). split.
      * simpl. rewrite <- Heq. reflexivity.
      * constructor; assumption.
    + exists []. split; [reflexivity | constructor].
Qed.

Lemma lstrip_head (s : pystr) (c : N) :
  hd_error (lstrip s) = Some c -> is_space c = false.
Proof.
  induction s as [| d s IH]; simpl.
  - discriminate.
  - destruct (is_space d) eqn:Hd.
    + exact IH.
    + simpl. intro H. injection H as <-. exact Hd.
Qed.

Lemma lstrip_fixed (s : pystr) :
  (forall c, hd_error s = Some c -> is_space c = false) -> lstrip s = s.
Proof.
  destruct s as [| d s]; simpl; intro H.
  - reflexivity.
  - rewrite (H d eq_refl). reflexivity.
Qed.

(** [rstrip] keeps a prefix. *)
Lemma rstrip_split (s : pystr) :
  exists q, s = rstrip s ++ q /\ Forall (fun c => is_space c = true) q.
Proof.
  unfold rstrip. destruct (lstrip_split (rev s)) as [p [Heq Hp]].
  exists (rev p). split.
  - rewrite <- rev_app_distr, <- Heq, rev_involutive. reflexivity.
  - apply Forall_rev. exact Hp.
Qed.

Lemma rstrip_last (s : pystr) (c : N) :
  hd_error (rev (rstrip s)) = Some c -> is_space c = false.
Proof.
  unfold rstrip. rewrite rev_involutive. apply lstrip_head.
Qed.

Lemma rstrip_head (s : pystr) (c : N) :
  hd_error (rstrip s) = Some c -> hd_error s = Some c.
Proof.
  destruct (rstrip_split s) as [q [Heq _]].
  intro H. rewrite Heq.
  destruct (rstrip s) as [| d r]; [discriminate | exact H].
Qed.

Lemma strip_head (s : pystr) (c : N) :
  hd_error (strip s) = Some c -> is_space c = false.
Proof.
  unfold strip. intro H. apply rstrip_head in H.
  apply lstrip_head with (s := s). exact H.
Qed.

Lemma strip_last (s : pystr) (c : N) :
  hd_error (rev (strip s)) = Some c -> is_space c = false.
Proof. unfold strip. apply rstrip_last. Qed.

Lemma strip_idempotent (s : pystr) : strip (strip s) = strip s.
Proof.
  unfold strip at 1.
  rewrite (lstrip_fixed (strip s)) by apply strip_head.
  unfold rstrip.
  rewrite (lstrip_fixed (rev (strip s))) by apply strip_last.
  apply rev_involutive.
Qed.

(* ------------------------------------------------------------------ *)
(** ** Session: the annotation timeline *)

Lemma elapsed_never_started (e : Env) (s : Session.state) :
  Session.t0_monotonic s = None -> Session.elapsed e s = 0.
Proof. unfold Session.elapsed. intros ->. reflexivity. Qed.

Lemma elapsed_started (e : Env) (s : Session.state) (t0 : Q) :
  Session.t0_monotonic s = Some t0 ->
  Session.elapsed e s == Qmax 0 (perf_counter e - t0).
Proof. unfold Session.elapsed. intros ->. apply py_max_Qmax. Qed.

Lemma elapsed_mono (e1 e2 : Env) (s : Session.state) :
  perf_counter e1 <= perf_counter e2 ->
  Session.elapsed e1 s <= Session.elapsed e2 s.
Proof.
  intro H. unfold Session.elapsed.
  destruct (Session.t0_monotonic s) as [t0 |].
  - apply py_max_mono_r. unfold Qminus.
    apply Qplus_le_compat; [exact H | apply Qle_refl].
  - apply Qle_refl.
Qed.

(** C1, the claim as stated fails: [Session.add] makes no check of its
    text. On a new session, [add("   ")], whose text strips to the empty
    string, appends an annotation and returns it. *)
Lemma add_blank_text_appends :
  strip (u "   ") = [] /\
  Session.add Sample.env0 (u "   ") Sample.session0
  = ({| t := 0; text := u "   " |},
     Session.set_annotations [{| t := 0; text := u "   " |}] Sample.session0) /\
  Session.annotations (snd (Session.add Sample.env0 (u "   ") Sample.session0))
  <> Session.annotations Sample.session0.
Proof.
  split; [reflexivity |]. split; [reflexivity |].
  simpl. discriminate.
Qed.

(** C1, as amended: for every session and every text, also one that strips
    to the empty string, [Session.add(text)] appends exactly one annotation
    [{t: elapsed(), text}] and returns it; the check for empty text is made
    by the handler [annotate] before it calls [add]: for a text that strips
    to the empty string it answers 400 "text is empty" and leaves the
    session, its annotation list included, as it was. *)
Theorem add_appends_annotate_validates
  (e : Env) (txt : pystr) (a : App.state) :
  let s := App.session a in
  let item := {| t := Session.elapsed e s; text := txt |} in
  Session.add e txt s
  = (item, Session.set_annotations (Session.annotations s ++ [item]) s) /\
  List.length (Session.annotations (snd (Session.add e txt s)))
  = S (List.length (Session.annotations s)) /\
  (strip txt = [] ->
   App.annotate e (Some txt) a = (App.Failure 400 (u "text is empty"), a)) /\
  (strip [] = [] /\
   App.annotate e None a = (App.Failure 400 (u "text is empty"), a)).
Proof.
  cbv zeta. split; [reflexivity |]. split.
  - simpl. rewrite length_app. simpl. lia.
  - split.
    + intro H. unfold App.annotate. rewrite H. reflexivity.
    + split; reflexivity.
Qed.

Lemma add_appends_annotate_validates_witness :
  strip (u "   ") = [] /\
  App.annotate Sample.env0 (Some (u "   ")) Sample.app0
  = (App.Failure 400 (u "text is empty"), Sample.app0).
Proof.
  assert (H : strip (u "   ") = []) by reflexivity.
  split; [exact H |].
  exact (proj1 (proj2 (proj2
           (add_appends_annotate_validates Sample.env0 (u "   ") Sample.app0)))
           H).
Defined.

(** C5: [elapsed()] is 0 on a session that was never started; once
    [start] has set the reference it is [max(0, now - start)] on the
    monotonic clock; from one call to the next in the same session (the
    monotonic clock not going back, [add] or [undo] possibly in between) it
    does not decrease; and it is the same whatever the wall clocks (and
    the working directory) show. *)
Theorem elapsed_monotonic_clock_only
  (e1 e2 : Env) (s : Session.state)
  (Hclock : perf_counter e1 <= perf_counter e2) :
  (forall src, Session.elapsed e1 (Session.init src) = 0) /\
  match Session.t0_monotonic s with
  | None => Session.elapsed e1 s = 0
  | Some t0 => Session.elapsed e1 s == Qmax 0 (perf_counter e1 - t0)
  end /\
  (forall e0 rec,
     Session.elapsed e1 (fst (Session.start e0 rec s))
     == Qmax 0 (perf_counter e1 - perf_counter e0)) /\
  Session.elapsed e1 s <= Session.elapsed e2 s /\
  (forall txt,
     Session.elapsed e1 s <= Session.elapsed e2 (snd (Session.add e1 txt s))) /\
  Session.elapsed e1 s <= Session.elapsed e2 (snd (Session.undo s)) /\
  (forall iso stamp dir,
     Session.elapsed {| utc_iso := iso; local_stamp := stamp;
                        perf_counter := perf_counter e1; cwd := dir |} s
     = Session.elapsed e1 s).
Proof.
  split; [reflexivity |]. split.
  { destruct (Session.t0_monotonic s) as [t0 |] eqn:Ht.
    - apply elapsed_started. exact Ht.
    - apply elapsed_never_started. exact Ht. }
  split.
  { intros e0 rec. apply elapsed_started.
    unfold Session.start. destruct (Recorder.start e0 rec). reflexivity. }
  split; [apply elapsed_mono; exact Hclock |]. split.
  { intro txt. apply (elapsed_mono e1 e2 s) in Hclock. exact Hclock. }
  split.
  { unfold Session.undo.
    destruct (Session.pop (Session.annotations s)) as [[a rest] |];
      apply (elapsed_mono e1 e2 s) in Hclock; exact Hclock. }
  reflexivity.
Qed.

Lemma elapsed_monotonic_clock_only_witness :
  perf_counter Sample.env0 <= perf_counter Sample.env1 /\
  Session.elapsed Sample.env0
    (fst (Session.start Sample.env0 Sample.recorder0 Sample.session0))
  <= Session.elapsed Sample.env1
    (fst (Session.start Sample.env0 Sample.recorder0 Sample.session0)).
Proof.
  assert (H : perf_counter Sample.env0 <= perf_counter Sample.env1).
  { unfold Qle. simpl. lia. }
  split; [exact H |].
  apply (elapsed_monotonic_clock_only Sample.env0 Sample.env1
           (fst (Session.start Sample.env0 Sample.recorder0 Sample.session0)) H).
Defined.

(** The elapsed time of the sample session seven and a half seconds after
    its start. *)
Example elapsed_sample :
  Session.elapsed Sample.env1
    (fst (Session.start Sample.env0 Sample.recorder0 Sample.session0))
  == 15 # 2.
Proof. reflexivity. Qed.

(** C7: [undo()] on an empty annotation list returns [None] and leaves the
    list empty; after two calls of [add], [undo()] returns the annotation
    of the second call and leaves the session as it was after the first,
    with the first annotation still the last of the list. *)
Theorem undo_removes_last
  (s : Session.state) (e1 e2 : Env) (a b : pystr) :
  let empty := Session.set_annotations [] s in
  let s1 := snd (Session.add e1 a s) in
  let s2 := snd (Session.add e2 b s1) in
  Session.undo empty = (None, empty) /\
  Session.annotations (snd (Session.undo empty)) = [] /\
  Session.undo s2 = (Some (fst (Session.add e2 b s1)), s1) /\
  Session.annotations (snd (Session.undo s2))
  = Session.annotations s ++ [fst (Session.add e1 a s)].
Proof.
  cbv zeta. split; [reflexivity |]. split; [reflexivity |].
  assert (H : Session.undo (snd (Session.add e2 b (snd (Session.add e1 a s))))
              = (Some (fst (Session.add e2 b (snd (Session.add e1 a s)))),
                 snd (Session.add e1 a s))).
  { unfold Session.undo. simpl. rewrite pop_snoc. reflexivity. }
  split; [exact H |]. rewrite H. reflexivity.
Qed.

Example undo_on_new_session :
  Session.undo Sample.session0 = (None, Sample.session0).
Proof. reflexivity. Qed.

(** C9: [Session.start(recorder)] sets the wall-clock start stamp to
    [now_utc_iso()] and the monotonic reference to [perf_counter()],
    empties the annotation list whatever it held, stores the recorder as
    [Recorder.start] leaves it, which is active, and takes the recorder's
    output path as the session's recording path; a recorder that was not
    active gets its thread launched and the path
    [out_dir/prefix<stamp>.mp4]. *)
Theorem session_start_resets_and_records
  (e : Env) (rec : Recorder.state) (s : Session.state) :
  let s1 := fst (Session.start e rec s) in
  let rec1 := fst (Recorder.start e rec) in
  Session.started_at_iso s1 = Some (now_utc_iso e) /\
  Session.t0_monotonic s1 = Some (perf_counter e) /\
  Session.annotations s1 = [] /\
  Session.recorder s1 = Some rec1 /\
  snd (Session.start e rec s) = snd (Recorder.start e rec) /\
  Recorder.active rec1 = true /\
  Session.recording_path s1 = Recorder.path rec1 /\
  Session.source s1 = Session.source s /\
  (if Recorder.active rec then rec1 = rec
   else
     Recorder.path rec1
     = Some (path_join (Recorder.out_dir rec)
               (Recorder.prefix rec ++ local_stamp e ++ u ".mp4")) /\
     Recorder._stop_evt rec1 = false /\
     snd (Recorder.start e rec)
     = [MakeDirs (Recorder.out_dir rec); StartThread RecorderRun]).
Proof.
  cbv zeta. unfold Session.start, Recorder.start, Recorder.active.
  destruct (Recorder._active rec) eqn:Hact; simpl; repeat split; auto.
Qed.

Example session_start_sample :
  Session.recording_path
    (fst (Session.start Sample.env0 Sample.recorder0
            (snd (Session.add Sample.env0 (u "old") Sample.session0))))
  = Some (u "./recording_20240501_120000.mp4").
Proof. reflexivity. Qed.

(** C6: [POST /stop] on an application whose session was never started
    (no recorder, no start time, nothing added) answers, writes the session
    record with [duration_sec] 0 and an empty annotation list, and leaves
    the session as it was. *)
Theorem stop_before_start
  (e : Env) (joined : bool) (g : FrameGrabber.state) (src : pystr) (fps0 : Q) :
  let a := {| App.grabber := g; App.session := Session.init src;
              App.fps := fps0 |} in
  let json_path :=
    path_join (cwd e) (u "annotations_" ++ local_stamp e ++ u ".json") in
  let record :=
    {| video_source := src; started_at := None; duration_sec := 0;
       annotations_ := []; recording := None |} in
  App.stop_and_quit e joined a
  = (App.Stopped json_path None 0 0,
     {| App.grabber := fst (FrameGrabber.stop joined g);
        App.session := Session.init src; App.fps := fps0 |},
     [DumpJson json_path record] ++ snd (FrameGrabber.stop joined g)
     ++ [StartTimer (1 # 2)])
  /\ Session.to_json e (Session.init src) = record.
Proof.
  cbv zeta. split; [| reflexivity].
  unfold App.stop_and_quit. simpl.
  destruct (FrameGrabber.stop joined g) as [g1 ef2]. reflexivity.
Qed.

Example stop_on_new_application :
  snd (App.stop_and_quit Sample.env0 true Sample.app0)
  = [DumpJson (u "/srv/annotator/annotations_20240501_120000.json")
       {| video_source := u "rtsp://cam/live"; started_at := None;
          duration_sec := 0; annotations_ := []; recording := None |};
     JoinThread GrabberRun 2; StartTimer (1 # 2)].
Proof. reflexivity. Qed.

(** Before [start], annotations can be added through [add]; they carry the
    time 0 and the record written on stop holds them. *)
Lemma stop_before_start_keeps_added
  (e : Env) (s : Session.state) :
  Session.t0_monotonic s = None ->
  duration_sec (Session.to_json e s) = 0 /\
  annotations_ (Session.to_json e s) = Session.annotations s.
Proof.
  intro H. unfold Session.to_json. simpl.
  split; [apply elapsed_never_started; exact H | reflexivity].
Qed.

(** C10: when the submitted text strips to a non-empty string, [annotate]
    stores and returns one annotation whose text is the stripped text: it
    begins and ends with a character that is not white space, and it
    differs from the submitted text whenever stripping changed that. *)
Theorem annotate_stores_stripped_text
  (e : Env) (raw : pystr) (a : App.state)
  (Hnonempty : strip raw <> []) :
  let item := {| t := Session.elapsed e (App.session a); text := strip raw |} in
  App.annotate e (Some raw) a
  = (App.Item item,
     {| App.grabber := App.grabber a;
        App.session :=
          Session.set_annotations
            (Session.annotations (App.session a) ++ [item]) (App.session a);
        App.fps := App.fps a |}) /\
  (forall c, hd_error (text item) = Some c -> is_space c = false) /\
  (forall c, hd_error (rev (text item)) = Some c -> is_space c = false) /\
  strip (text item) = text item /\
  (strip raw <> raw -> text item <> raw).
Proof.
  cbv zeta. split.
  - unfold App.annotate.
    destruct (strip raw) as [| c r] eqn:Hs; [contradiction |].
    reflexivity.
  - simpl. split; [apply strip_head |]. split; [apply strip_last |].
    split; [apply strip_idempotent | auto].
Qed.

Lemma annotate_stores_stripped_text_witness :
  strip (u "  door opens ") <> [] /\
  App.annotate Sample.env0 (Some (u "  door opens ")) Sample.app0
  = (App.Item {| t := 0; text := u "door opens" |},
     {| App.grabber := App.grabber Sample.app0;
        App.session :=
          Session.set_annotations [{| t := 0; text := u "door opens" |}]
            (App.session Sample.app0);
        App.fps := App.fps Sample.app0 |}).
Proof.
  assert (H : strip (u "  door opens ") <> []) by (vm_compute; discriminate).
  split; [exact H |].
  exact (proj1 (annotate_stores_stripped_text Sample.env0
                  (u "  door opens ") Sample.app0 H)).
Defined.

(* ------------------------------------------------------------------ *)
(** ** Recorder: start, stop and the paced write loop *)

Lemma stop_leaves_inactive (r : Recorder.state) :
  Recorder.active (fst (Recorder.stop r)) = false.
Proof.
  unfold Recorder.stop, Recorder.active.
  destruct (Recorder._active r) eqn:H; simpl; [reflexivity | exact H].
Qed.

Lemma first_write_opens_writer (f : Frame) (r : Recorder.state) :
  Recorder._writer r = None ->
  Recorder._writer (Recorder.write f (Recorder._open_writer_if_needed f r))
  = Some {| vw_path := Recorder.path r; vw_fourcc := u "mp4v";
            vw_fps := Recorder.fps r; vw_size := (cols f, rows f);
            vw_frames := [f] |}.
Proof.
  intro H. unfold Recorder._open_writer_if_needed. rewrite H. reflexivity.
Qed.

Lemma write_appends_frame (f : Frame) (r : Recorder.state) :
  exists w,
    Recorder._writer (Recorder.write f (Recorder._open_writer_if_needed f r))
    = Some w /\
    vw_frames w
    = match Recorder._writer r with
      | Some w0 => vw_frames w0
      | None => []
      end ++ [f].
Proof.
  unfold Recorder._open_writer_if_needed, Recorder.write.
  destruct (Recorder._writer r) as [w0 |] eqn:Hw.
  - rewrite Hw. eexists. split; reflexivity.
  - simpl. eexists. split; reflexivity.
Qed.

(** C2, the claim as stated fails: the sample recorder is started, stopped
    and started again seven seconds later; the second [start] is not
    without effect: it launches the write loop again, on a new path. *)
Lemma restart_after_stop_records_again :
  let stopped :=
    fst (Recorder.stop (fst (Recorder.start Sample.env0 Sample.recorder0))) in
  Recorder.path stopped = Some (u "./recording_20240501_120000.mp4") /\
  Recorder.active stopped = false /\
  Recorder.start Sample.env1 stopped <> (stopped, []) /\
  snd (Recorder.start Sample.env1 stopped)
  = [MakeDirs (u "."); StartThread RecorderRun] /\
  Recorder.active (fst (Recorder.start Sample.env1 stopped)) = true /\
  Recorder.path (fst (Recorder.start Sample.env1 stopped))
  = Some (u "./recording_20240501_120007.mp4").
Proof.
  cbv zeta. split; [reflexivity |]. split; [reflexivity |].
  split; [| repeat split].
  intro H. apply (f_equal snd) in H. discriminate H.
Qed.

(** C2, as amended: a Recorder can be started again. [start] does nothing
    only while the recorder is active; after [stop] the recorder is not
    active, and [start] on the same instance begins a new recording: it
    creates the output directory, takes a new path from the time of this
    call, clears the stop event, launches the write loop and sets [active];
    after a [stop] that ended a recording, the first frame the new loop
    finds opens a writer on the new path. *)
Theorem start_after_stop_begins_recording
  (e : Env) (r : Recorder.state) :
  let stopped := fst (Recorder.stop r) in
  let again := fst (Recorder.start e stopped) in
  Recorder.active stopped = false /\
  snd (Recorder.start e stopped)
  = [MakeDirs (Recorder.out_dir r); StartThread RecorderRun] /\
  Recorder.active again = true /\
  Recorder._stop_evt again = false /\
  Recorder.path again
  = Some (path_join (Recorder.out_dir r)
            (Recorder.prefix r ++ local_stamp e ++ u ".mp4")) /\
  (Recorder.active r = true ->
   forall (k : Recorder.Tick) (next_t : Q) (f : Frame),
     FrameGrabber.get_latest_frame (Recorder.grabber k) = Some f ->
     Recorder._writer (fst (fst (Recorder.run_iter k again next_t)))
     = Some {| vw_path := Recorder.path again; vw_fourcc := u "mp4v";
               vw_fps := Recorder.fps r; vw_size := (cols f, rows f);
               vw_frames := [f] |}) /\
  (forall r0, Recorder.active r0 = true -> Recorder.start e r0 = (r0, [])).
Proof.
  cbv zeta.
  pose proof (stop_leaves_inactive r) as Hin.
  split; [exact Hin |].
  unfold Recorder.active in *.
  assert (Hdir : Recorder.out_dir (fst (Recorder.stop r)) = Recorder.out_dir r).
  { unfold Recorder.stop. destruct (Recorder._active r); reflexivity. }
  assert (Hpre : Recorder.prefix (fst (Recorder.stop r)) = Recorder.prefix r).
  { unfold Recorder.stop. destruct (Recorder._active r); reflexivity. }
  assert (Hfps : Recorder.fps (fst (Recorder.stop r)) = Recorder.fps r).
  { unfold Recorder.stop. destruct (Recorder._active r); reflexivity. }
  unfold Recorder.start at 1 2 3 4. rewrite Hin. simpl.
  rewrite Hdir, Hpre.
  repeat (split; [reflexivity |]).
  split.
  - intros Hact k next_t f Hf.
    unfold Recorder.run_iter. rewrite Hf.
    assert (Hw : Recorder._writer (fst (Recorder.start e (fst (Recorder.stop r))))
                 = None).
    { unfold Recorder.start. rewrite Hin. simpl.
      unfold Recorder.stop. rewrite Hact. reflexivity. }
    pose proof (first_write_opens_writer f _ Hw) as Hopen.
    assert (Hfps' : Recorder.fps (fst (Recorder.start e (fst (Recorder.stop r))))
                    = Recorder.fps r).
    { unfold Recorder.start. rewrite Hin. simpl. exact Hfps. }
    rewrite Hfps' in Hopen.
    match goal with
    | |- context [if ?c then _ else _] => destruct c
    end; simpl; exact Hopen.
  - intros r0 H0. unfold Recorder.start. rewrite H0. reflexivity.
Qed.

Lemma start_after_stop_begins_recording_witness :
  let started := fst (Recorder.start Sample.env0 Sample.recorder0) in
  let again := fst (Recorder.start Sample.env1 (fst (Recorder.stop started))) in
  Recorder.active started = true /\
  FrameGrabber.get_latest_frame (Recorder.grabber Sample.tick0)
  = Some Sample.frame0 /\
  Recorder._writer (fst (fst (Recorder.run_iter Sample.tick0 again 0)))
  = Some {| vw_path := Some (u "./recording_20240501_120007.mp4");
            vw_fourcc := u "mp4v"; vw_fps := 25; vw_size := (640, 480)%Z;
            vw_frames := [Sample.frame0] |}.
Proof.
  cbv zeta.
  assert (Ha : Recorder.active
                 (fst (Recorder.start Sample.env0 Sample.recorder0)) = true)
    by reflexivity.
  assert (Hf : FrameGrabber.get_latest_frame (Recorder.grabber Sample.tick0)
               = Some Sample.frame0) by reflexivity.
  split; [exact Ha |]. split; [exact Hf |].
  exact (proj1 (proj2 (proj2 (proj2 (proj2 (proj2
           (start_after_stop_begins_recording Sample.env1
              (fst (Recorder.start Sample.env0 Sample.recorder0))))))))
           Ha Sample.tick0 0 Sample.frame0 Hf).
Defined.

Lemma target_dt_bounds (r : Recorder.state) :
  0 < Recorder.target_dt r /\ Recorder.target_dt r <= 1000000.
Proof.
  unfold Recorder.target_dt.
  assert (Hfloor : (1 # 1000000) <= py_max (1 # 1000000) (Recorder.fps r)).
  { rewrite py_max_Qmax. apply Q.le_max_l. }
  assert (Hpos : 0 < py_max (1 # 1000000) (Recorder.fps r)).
  { apply Qlt_le_trans with (y := 1 # 1000000); [reflexivity | exact Hfloor]. }
  split.
  - apply Qlt_shift_div_l; [exact Hpos | lra].
  - apply Qle_shift_div_r; [exact Hpos | lra].
Qed.

Lemma target_dt_is_period (r : Recorder.state) :
  (1 # 1000000) <= Recorder.fps r ->
  Recorder.target_dt r == 1 / Recorder.fps r.
Proof.
  intro H. unfold Recorder.target_dt.
  assert (Hm : py_max (1 # 1000000) (Recorder.fps r) == Recorder.fps r).
  { rewrite py_max_Qmax. apply Q.max_r. exact H. }
  rewrite Hm. reflexivity.
Qed.

(** C8, the claim as stated fails on the length of the step: with a frame
    rate of 1e-7 frames per second, a pass that writes a frame moves the
    schedule from 0 to 1000000, not to [1/fps], which is 10000000. *)
Lemma schedule_step_is_floored :
  let next_t1 :=
    snd (fst (Recorder.run_iter Sample.tick0 Sample.slow_recorder 0)) in
  FrameGrabber.get_latest_frame (Recorder.grabber Sample.tick0)
  = Some Sample.frame0 /\
  1 / Recorder.fps Sample.slow_recorder == 10000000 /\
  next_t1 == 1000000 /\
  ~ next_t1 == 0 + 1 / Recorder.fps Sample.slow_recorder.
Proof.
  cbv zeta. split; [reflexivity |]. split; [reflexivity |].
  split; [reflexivity |].
  vm_compute. discriminate.
Qed.

(** C8, as amended: in every pass of the write loop, when no frame is
    available the loop sleeps 10 ms and leaves the recorder and the next
    scheduled time as they are; when a frame is available it is written
    (to a writer opened at need), the schedule advances by exactly
    [1 / max(1e-6, fps)], which is [1/fps] for every frame rate of at least
    1e-6 and is never more than 1000000 s; if the new scheduled time is
    still ahead the loop sleeps until it, but 0.2 s at most, and otherwise
    the schedule is set to the time read then and the loop does not sleep. *)
Theorem paced_write_pass
  (k : Recorder.Tick) (r : Recorder.state) (next_t : Q) :
  let dt := 1 / py_max (1 # 1000000) (Recorder.fps r) in
  let due := next_t + dt in
  let now := Recorder.now_after_write k in
  let r1 := fst (fst (Recorder.run_iter k r next_t)) in
  let next_t1 := snd (fst (Recorder.run_iter k r next_t)) in
  let slept := snd (Recorder.run_iter k r next_t) in
  match FrameGrabber.get_latest_frame (Recorder.grabber k) with
  | None => r1 = r /\ next_t1 = next_t /\ slept = [Sleep (1 # 100)]
  | Some f =>
      r1 = Recorder.write f (Recorder._open_writer_if_needed f r) /\
      (exists w,
         Recorder._writer r1 = Some w /\
         vw_frames w
         = match Recorder._writer r with
           | Some w0 => vw_frames w0
           | None => []
           end ++ [f]) /\
      (now < due ->
       next_t1 = due /\
       exists d, slept = [Sleep d] /\ d == Qmin (due - now) (1 # 5) /\
                 0 < d /\ d <= 1 # 5) /\
      (due <= now -> next_t1 = Recorder.now_on_reset k /\ slept = [])
  end /\
  ((1 # 1000000) <= Recorder.fps r -> dt == 1 / Recorder.fps r) /\
  0 < dt /\ dt <= 1000000.
Proof.
  cbv zeta. split.
  - unfold Recorder.run_iter.
    destruct (FrameGrabber.get_latest_frame (Recorder.grabber k)) as [f |].
    + fold (Recorder.target_dt r).
      destruct (Qlt_le_dec 0
                  (next_t + Recorder.target_dt r - Recorder.now_after_write k))
        as [Hahead | Hpast]; simpl.
      * split; [reflexivity |]. split; [apply write_appends_frame |]. split.
        -- intros _. split; [reflexivity |].
           eexists. split; [reflexivity |]. split; [apply py_min_Qmin |].
           rewrite py_min_Qmin. split.
           ++ apply Q.min_glb_lt; [exact Hahead | reflexivity].
           ++ apply Q.le_min_r.
        -- intro Hdue. exfalso. lra.
      * split; [reflexivity |]. split; [apply write_appends_frame |]. split.
        -- intro Hnow. exfalso. lra.
        -- intros _. split; reflexivity.
    + repeat split.
  - split; [apply target_dt_is_period |]. apply target_dt_bounds.
Qed.

Lemma paced_write_pass_witness :
  Recorder.now_after_write Sample.tick1
  < 100 + 1 / py_max (1 # 1000000) (Recorder.fps Sample.recorder0) /\
  (1 # 1000000) <= Recorder.fps Sample.recorder0 /\
  snd (fst (Recorder.run_iter Sample.tick1 Sample.recorder0 100))
  = 100 + 1 / py_max (1 # 1000000) (Recorder.fps Sample.recorder0) /\
  1 / py_max (1 # 1000000) (Recorder.fps Sample.recorder0)
  == 1 / Recorder.fps Sample.recorder0.
Proof.
  assert (Hahead : Recorder.now_after_write Sample.tick1
                   < 100 + 1 / py_max (1 # 1000000)
                                 (Recorder.fps Sample.recorder0))
    by (vm_compute; reflexivity).
  assert (Hfps : (1 # 1000000) <= Recorder.fps Sample.recorder0)
    by (vm_compute; discriminate).
  pose proof (paced_write_pass Sample.tick1 Sample.recorder0 100) as H.
  cbv zeta in H.
  change (FrameGrabber.get_latest_frame (Recorder.grabber Sample.tick1))
    with (Some Sample.frame0) in H.
  destruct H as [[_ [_ [Hsleep _]]] [Hperiod _]].
  split; [exact Hahead |]. split; [exact Hfps |].
  split; [exact (proj1 (Hsleep Hahead)) | exact (Hperiod Hfps)].
Defined.

(** At 25 frames per second, a pass whose next write is due a full second
    after the clock reading sleeps 200 ms only. *)
Example pass_sleeps_capped :
  snd (Recorder.run_iter Sample.tick0 Sample.recorder0 (24 # 25))
  = [Sleep (py_min ((24 # 25) + Recorder.target_dt Sample.recorder0 - 0) (1 # 5))]
  /\ py_min ((24 # 25) + Recorder.target_dt Sample.recorder0 - 0) (1 # 5)
     == 1 # 5.
Proof. split; reflexivity. Qed.

(* ------------------------------------------------------------------ *)
(** ** FrameGrabber: the encoded snapshot *)

(** C4, the claim as stated fails: the grabber holds a frame, the encoder
    reports failure, and [get_latest_jpeg] returns [None] although
    [get_latest_frame] returns the frame. *)
Lemma jpeg_absent_with_frame_present :
  FrameGrabber.get_latest_frame Sample.grabber_with_frame
  = Some Sample.frame0 /\
  @cv_imencode Sample.refusing_codec Sample.frame0 80 = (false, []) /\
  @FrameGrabber.get_latest_jpeg Sample.refusing_codec 80
     Sample.grabber_with_frame = None.
Proof. repeat split. Qed.

(** C4, as amended: for every grabber state and quality,
    [get_latest_jpeg(quality)] returns [None] when [get_latest_frame()]
    returns [None]; when [get_latest_frame()] returns a frame, it returns
    the bytes of the encoder if the encoder reports success and [None] if
    the encoder reports failure. *)
Theorem jpeg_follows_frame_and_encoder
  (cv : OpenCV) (g : FrameGrabber.state) (quality : Z) :
  match FrameGrabber.get_latest_frame g with
  | None => FrameGrabber.get_latest_jpeg quality g = None
  | Some f =>
      FrameGrabber.get_latest_jpeg quality g
      = if fst (cv_imencode f quality)
        then Some (snd (cv_imencode f quality))
        else None
  end /\
  (FrameGrabber.get_latest_jpeg quality g = None <->
   FrameGrabber.get_latest_frame g = None \/
   exists f, FrameGrabber.get_latest_frame g = Some f /\
             fst (cv_imencode f quality) = false).
Proof.
  unfold FrameGrabber.get_latest_jpeg.
  destruct (FrameGrabber.get_latest_frame g) as [f |].
  - destruct (cv_imencode f quality) as [ok enc] eqn:Henc.
    destruct ok; simpl.
    + split; [reflexivity |]. split.
      * discriminate.
      * intros [H | [f' [H1 H2]]]; [discriminate |].
        injection H1 as <-. rewrite Henc in H2. discriminate.
    + split; [reflexivity |]. split; [| reflexivity].
      intros _. right. exists f. rewrite Henc. split; reflexivity.
  - split; [reflexivity |]. split; [left | ]; reflexivity.
Qed.

Example jpeg_of_sample_frame :
  @FrameGrabber.get_latest_jpeg Sample.obliging_codec 85
     Sample.grabber_with_frame = Some [255; 216]%N
  /\ @FrameGrabber.get_latest_jpeg Sample.obliging_codec 85 Sample.grabber0
     = None.
Proof. split; reflexivity. Qed.

(* ------------------------------------------------------------------ *)
(** ** FrameGrabber: the status through failures and successes *)

Lemma last_cons_default {A : Type} (x p : A) (l : list A) :
  last (x :: l) p = last l x.
Proof.
  revert x p. induction l as [| y l IH]; intros x p; [reflexivity |].
  change (last (x :: y :: l) p) with (last (y :: l) p).
  rewrite (IH y p), (IH y x). reflexivity.
Qed.

Lemma last_app_default {A : Type} (l1 l2 : list A) (p : A) :
  last (l1 ++ l2) p = last l2 (last l1 p).
Proof.
  revert p. induction l1 as [| x l1 IH]; intro p; [reflexivity |].
  rewrite <- app_comm_cons, !last_cons_default. apply IH.
Qed.

Section AcquisitionLoop.
Context {cv : OpenCV}.
Import FrameGrabber StatusTrace.

Lemma writes_app (e1 e2 : list event) :
  writes (e1 ++ e2) = writes e1 ++ writes e2.
Proof.
  induction e1 as [| [s | f | x] e1 IH]; simpl; rewrite ?IH; reflexivity.
Qed.

Lemma moves_from_app (p : Status) (w1 w2 : list Status) :
  moves_from p (w1 ++ w2)
  = (moves_from p w1 && moves_from (last w1 p) w2)%bool.
Proof.
  revert p. induction w1 as [| w w1 IH]; intro p.
  - reflexivity.
  - change (moves_from p ((w :: w1) ++ w2))
      with (move p w && moves_from w (w1 ++ w2))%bool.
    rewrite IH, last_cons_default. simpl moves_from at 2.
    rewrite andb_assoc. reflexivity.
Qed.

(** One pass from a settled state: where it ends and what it wrote. *)
Lemma run_iter_settled (a : Answers) (g : state) :
  settled g ->
  settled (fst (run_iter a g)) /\
  _status (fst (run_iter a g))
  = (if pass_succeeds a g then Streaming else Error) /\
  moves_from (_status g) (writes (snd (run_iter a g))) = true /\
  last (writes (snd (run_iter a g))) (_status g) = _status (fst (run_iter a g)) /\
  _stop_evt (fst (run_iter a g)) = _stop_evt g.
Proof.
  destruct g as [src d w c th st lb stt].
  destruct a as [o rk rf].
  unfold settled, run_iter, pass_succeeds, read_step, _open_cap. simpl.
  destruct c as [c |]; simpl.
  - intros ->. destruct rk, rf as [f |]; simpl; repeat split; auto.
  - intros [-> | ->]; destruct o, rk, rf as [f |]; simpl; repeat split; auto.
Qed.

Lemma run_settled (answers : list Answers) (g : state) :
  settled g ->
  settled (fst (_run answers g)) /\
  moves_from (_status g) (writes (snd (_run answers g))) = true /\
  last (writes (snd (_run answers g))) (_status g) = _status (fst (_run answers g)).
Proof.
  revert g. induction answers as [| a rest IH]; intros g Hg.
  - simpl. repeat split; auto.
  - simpl. destruct (_stop_evt g); [simpl; repeat split; auto |].
    destruct (run_iter_settled a g Hg) as [Hs [_ [Hm [Hl _]]]].
    destruct (run_iter a g) as [g1 ev1]. simpl in *.
    destruct (IH g1 Hs) as [Hs2 [Hm2 Hl2]].
    destruct (_run rest g1) as [g2 ev2]. simpl in *.
    split; [exact Hs2 |].
    rewrite writes_app. split.
    + rewrite moves_from_app, Hm, Hl, Hm2. reflexivity.
    + rewrite last_app_default, Hl. exact Hl2.
Qed.

Lemma init_settled (src : pystr) (delay : Q) (width : option Z) :
  settled (init src delay width).
Proof. unfold settled. simpl. left. reflexivity. Qed.

End AcquisitionLoop.

(** C3, the claim as stated fails: the device refuses to open in the first
    pass of the loop and delivers a frame in the second. Between the
    failure and the successful open the status is written [Connecting], so
    [Error] is not held until the next [Streaming]. *)
Lemma connecting_seen_after_failure :
  let trace :=
    StatusTrace.writes
      (snd (@FrameGrabber._run Sample.obliging_codec
              [Sample.open_fails; Sample.delivers] Sample.grabber0)) in
  trace = [FrameGrabber.Connecting; FrameGrabber.Error;
           FrameGrabber.Connecting; FrameGrabber.Streaming] /\
  StatusTrace.error_held false trace = false.
Proof. split; reflexivity. Qed.

(** C3, as amended: for every sequence of passes of the acquisition loop,
    the status is [Streaming] right after every pass that ends with a frame
    and after every successful open, and [Error] right after every failed
    open and every failed read; the values written to the status follow the
    moves Idle or Error to Connecting, Connecting to Error or Streaming,
    Streaming to Error, and no others: from a failure until the next
    successful open the status is [Error], except that it is [Connecting]
    for the time of each attempt to open, and it is never [Idle] again. *)
Theorem status_tracks_acquisition
  (cv : OpenCV) (src : pystr) (delay : Q) (width : option Z)
  (answers : list FrameGrabber.Answers) (a : FrameGrabber.Answers) :
  let g0 := FrameGrabber.init src delay width in
  let g := fst (FrameGrabber._run answers g0) in
  FrameGrabber.status (fst (FrameGrabber.run_iter a g))
  = (if StatusTrace.pass_succeeds a g
     then FrameGrabber.Streaming else FrameGrabber.Error) /\
  (forall is_opened,
     FrameGrabber.status (snd (fst (FrameGrabber._open_cap is_opened g)))
     = if is_opened then FrameGrabber.Streaming else FrameGrabber.Error) /\
  StatusTrace.moves_from FrameGrabber.Idle
    (StatusTrace.writes (snd (FrameGrabber._run answers g0))) = true /\
  StatusTrace.moves_from (FrameGrabber.status g)
    (StatusTrace.writes (snd (FrameGrabber.run_iter a g))) = true /\
  ~ In FrameGrabber.Idle
      (StatusTrace.writes (snd (FrameGrabber._run answers g0))).
Proof.
  cbv zeta.
  pose proof (run_settled answers _ (init_settled src delay width))
    as [Hs [Hm _]].
  pose proof (run_iter_settled a _ Hs) as [_ [Hst [Hm1 _]]].
  split; [exact Hst |]. split.
  { intros [|]; reflexivity. }
  split; [exact Hm |]. split; [exact Hm1 |].
  simpl in Hm. revert Hm.
  generalize (StatusTrace.writes
                (snd (FrameGrabber._run answers
                        (FrameGrabber.init src delay width)))).
  generalize FrameGrabber.Idle at 1.
  intros p l. revert p. induction l as [| w l IH]; intros p Hm Hin.
  - exact Hin.
  - simpl in Hm. apply andb_prop in Hm. destruct Hm as [Hmv Hrest].
    destruct Hin as [-> | Hin].
    + destruct p; discriminate Hmv.
    + exact (IH w Hrest Hin).
Qed.

Example status_through_reconnect :
  FrameGrabber.status
    (fst (@FrameGrabber._run Sample.obliging_codec
            [Sample.delivers; Sample.read_fails; Sample.open_fails]
            Sample.grabber0)) = FrameGrabber.Error
  /\ FrameGrabber.get_latest_frame
       (fst (@FrameGrabber._run Sample.obliging_codec
               [Sample.delivers; Sample.read_fails; Sample.open_fails]
               Sample.grabber0)) = Some Sample.frame0
  /\ FrameGrabber.status
       (fst (@FrameGrabber._run Sample.obliging_codec
               [Sample.delivers; Sample.read_fails; Sample.open_fails;
                Sample.delivers]
               Sample.grabber0)) = FrameGrabber.Streaming.
Proof. repeat split. Qed.

(* ------------------------------------------------------------------ *)
(** ** Session: sequences of calls *)

Lemma set_annotations_same (s : Session.state) :
  Session.set_annotations (Session.annotations s) s = s.
Proof. destruct s. reflexivity. Qed.

Lemma set_annotations_twice (l1 l2 : list Annotation) (s : Session.state) :
  Session.set_annotations l2 (Session.set_annotations l1 s)
  = Session.set_annotations l2 s.
Proof. reflexivity. Qed.

Lemma pop_inv {A : Type} (l : list A) :
  match Session.pop l with
  | None => l = []
  | Some (x, r) => l = r ++ [x]
  end.
Proof.
  induction l as [| y l IH]; simpl; [reflexivity |].
  destruct (Session.pop l) as [[x r] |].
  - rewrite IH. reflexivity.
  - rewrite IH. reflexivity.
Qed.

Lemma elapsed_nonneg (e : Env) (s : Session.state) : 0 <= Session.elapsed e s.
Proof.
  unfold Session.elapsed. destruct (Session.t0_monotonic s) as [t0 |].
  - rewrite py_max_Qmax. apply Q.le_max_l.
  - apply Qle_refl.
Qed.

Lemma adds_append (adds : list (Env * pystr)) (s : Session.state) :
  Timeline.calls (map Timeline.add_of adds) s
  = Session.set_annotations
      (Session.annotations s ++ map (Timeline.item_of s) adds) s.
Proof.
  revert s. induction adds as [| [e txt] adds IH]; intro s.
  - simpl. rewrite app_nil_r. symmetry. apply set_annotations_same.
  - simpl. rewrite IH. simpl. rewrite <- app_assoc. reflexivity.
Qed.

Lemma undo_n_snoc (items l : list Annotation) (s : Session.state) :
  Timeline.undo_n (List.length items) (Session.set_annotations (l ++ items) s)
  = (map Some (rev items), Session.set_annotations l s).
Proof.
  induction items as [| x items IH] using rev_ind.
  - simpl. rewrite app_nil_r. reflexivity.
  - rewrite length_app, Nat.add_comm. simpl.
    unfold Session.undo. simpl.
    rewrite app_assoc, pop_snoc.
    rewrite set_annotations_twice, IH, rev_unit. reflexivity.
Qed.

Lemma sorted_snoc {A : Type} (R : A -> A -> Prop) (l : list A) (x : A) :
  StronglySorted R l -> Forall (fun a => R a x) l ->
  StronglySorted R (l ++ [x]).
Proof.
  induction 1 as [| a l Hs IH Ha]; intro Hx; simpl.
  - constructor; constructor.
  - inversion Hx as [| ? ? Hax Hlx]; subst.
    constructor; [apply IH; exact Hlx |].
    apply Forall_app. split; [exact Ha | constructor; [exact Hax | constructor]].
Qed.

Lemma sorted_front {A : Type} (R : A -> A -> Prop) (l : list A) (x : A) :
  StronglySorted R (l ++ [x]) -> StronglySorted R l.
Proof.
  induction l as [| a l IH]; simpl; intro H; [constructor |].
  inversion H as [| ? ? Hs Ha]; subst.
  constructor; [apply IH; exact Hs |].
  apply Forall_app in Ha. apply Ha.
Qed.

Section TimelineOrder.
Import Timeline.

Lemma in_order_add (b : Q) (e : Env) (txt : pystr) (s : Session.state) :
  in_order_by b s -> b <= perf_counter e ->
  in_order_by (perf_counter e) (snd (Session.add e txt s)).
Proof.
  intros [Hs Hf] Hb.
  assert (Hup : Session.elapsed (at_clock b) s <= Session.elapsed e s).
  { apply elapsed_mono. exact Hb. }
  unfold in_order_by. simpl. split.
  - apply sorted_snoc; [exact Hs |].
    eapply Forall_impl; [| exact Hf].
    intros a [_ Ha]. unfold earlier. simpl.
    apply Qle_trans with (y := Session.elapsed (at_clock b) s); assumption.
  - apply Forall_app. split.
    + eapply Forall_impl; [| exact Hf].
      intros a [H0 Ha]. split; [exact H0 |].
      apply Qle_trans with (y := Session.elapsed (at_clock b) s);
        [exact Ha | exact Hup].
    + constructor; [| constructor]. simpl.
      split; [apply elapsed_nonneg | apply Qle_refl].
Qed.

Lemma in_order_undo (b : Q) (s : Session.state) :
  in_order_by b s -> in_order_by b (snd (Session.undo s)).
Proof.
  intros [Hs Hf]. unfold Session.undo.
  pose proof (pop_inv (Session.annotations s)) as Hp.
  destruct (Session.pop (Session.annotations s)) as [[x r] |].
  - rewrite Hp in Hs, Hf. unfold in_order_by. simpl. split.
    + apply sorted_front with (x := x). exact Hs.
    + apply Forall_app in Hf. apply Hf.
  - split; assumption.
Qed.

Lemma in_order_start (e : Env) (rec : Recorder.state) (s : Session.state) :
  in_order_by (perf_counter e) (fst (Session.start e rec s)).
Proof.
  unfold Session.start. destruct (Recorder.start e rec) as [r1 ef].
  split; constructor.
Qed.

Lemma in_order_calls (cs : list call) :
  forall (b : Q) (s : Session.state),
    in_order_by b s ->
    Forall (Qle b) (readings cs) ->
    StronglySorted Qle (readings cs) ->
    in_order_by (last (readings cs) b) (calls cs s).
Proof.
  induction cs as [| c cs IH]; intros b s Hin Hb Hsorted.
  - exact Hin.
  - destruct c as [e rec | e txt |]; cbn [readings calls step] in *.
    + inversion Hsorted as [| ? ? Hs Hall]; subst.
      rewrite last_cons_default.
      apply (IH (perf_counter e)); [apply in_order_start | exact Hall | exact Hs].
    + inversion Hb as [| ? ? Hbe _]; subst.
      inversion Hsorted as [| ? ? Hs Hall]; subst.
      rewrite last_cons_default.
      apply (IH (perf_counter e));
        [apply in_order_add with (b := b); assumption | exact Hall | exact Hs].
    + apply IH; [apply in_order_undo; exact Hin | exact Hb | exact Hsorted].
Qed.

End TimelineOrder.

(** X1: whatever calls of [start], [add] and [undo] are made on a new
    session, if the readings of the monotonic clock they make do not go
    back, the annotations are in the order of their times, no time is
    negative, and none is later than the elapsed time at a reading that is
    not before the last of them. *)
Theorem timeline_is_chronological
  (src : pystr) (cs : list Timeline.call)
  (Hclock : StronglySorted Qle (Timeline.readings cs)) :
  let s := Timeline.calls cs (Session.init src) in
  StronglySorted Timeline.earlier (Session.annotations s) /\
  Forall (fun a => 0 <= t a) (Session.annotations s) /\
  (forall e,
     Forall (fun q => q <= perf_counter e) (Timeline.readings cs) ->
     Forall (fun a => t a <= Session.elapsed e s) (Session.annotations s)).
Proof.
  cbv zeta.
  assert (Hany : forall b, Forall (Qle b) (Timeline.readings cs) ->
            Timeline.in_order_by (last (Timeline.readings cs) b)
              (Timeline.calls cs (Session.init src))).
  { intros b Hb. apply in_order_calls; [| exact Hb | exact Hclock].
    split; constructor. }
  assert (Hsome : forall e,
            Forall (fun q => q <= perf_counter e) (Timeline.readings cs) ->
            exists b, b <= perf_counter e /\
              Timeline.in_order_by b (Timeline.calls cs (Session.init src))).
  { intros e He.
    destruct (Timeline.readings cs) as [| q qs] eqn:Hr.
    - exists (perf_counter e). split; [apply Qle_refl |].
      apply (Hany (perf_counter e)). constructor.
    - exists (last (q :: qs) q). split.
      + assert (Hin : In (last (q :: qs) q) (q :: qs)).
        { destruct (exists_last (l := q :: qs)) as [l' [x Hx]];
            [discriminate |].
          rewrite Hx, last_last. apply in_or_app. right. left. reflexivity. }
        rewrite Forall_forall in He. apply He. exact Hin.
      + apply (Hany q). inversion Hclock; subst.
        constructor; [apply Qle_refl | assumption]. }
  destruct (Hsome (Timeline.at_clock (last (Timeline.readings cs) 0)))
    as [b0 [_ [Hs Hf]]].
  { clear Hany Hsome. simpl.
    assert (Hgen : forall d, Forall (fun q => q <= last (Timeline.readings cs) d)
                               (Timeline.readings cs)).
    { induction Hclock as [| q qs Hq IH Hall]; intro d; [constructor |].
      rewrite last_cons_default. constructor.
      - destruct qs as [| q' qs']; [apply Qle_refl |].
        assert (Hin : In (last (q' :: qs') q) (q' :: qs')).
        { destruct (exists_last (l := q' :: qs')) as [l' [x Hx]];
            [discriminate |].
          rewrite Hx, last_last. apply in_or_app. right. left. reflexivity. }
        rewrite Forall_forall in Hall. apply Hall. exact Hin.
      - apply IH. }
    apply Hgen. }
  split; [exact Hs |]. split.
  - eapply Forall_impl; [| exact Hf]. intros a [H0 _]. exact H0.
  - intros e He. destruct (Hsome e He) as [b [Hb [_ Hf']]].
    eapply Forall_impl; [| exact Hf']. intros a [_ Ha].
    apply Qle_trans
      with (y := Session.elapsed (Timeline.at_clock b)
                   (Timeline.calls cs (Session.init src)));
      [exact Ha | apply elapsed_mono; exact Hb].
Qed.

Lemma timeline_is_chronological_witness :
  let cs := [Timeline.Add Sample.env0 (u "early");
             Timeline.Start Sample.env0 Sample.recorder0;
             Timeline.Add Sample.env0 (u "door");
             Timeline.Add Sample.env1 (u "slip");
             Timeline.Undo;
             Timeline.Add Sample.env1 (u "bell")] in
  StronglySorted Qle (Timeline.readings cs) /\
  StronglySorted Timeline.earlier
    (Session.annotations (Timeline.calls cs Sample.session0)).
Proof.
  cbv zeta.
  assert (H : StronglySorted Qle
                (Timeline.readings
                   [Timeline.Add Sample.env0 (u "early");
                    Timeline.Start Sample.env0 Sample.recorder0;
                    Timeline.Add Sample.env0 (u "door");
                    Timeline.Add Sample.env1 (u "slip");
                    Timeline.Undo;
                    Timeline.Add Sample.env1 (u "bell")])).
  { simpl. repeat constructor; unfold Qle; simpl; lia. }
  split; [exact H |].
  exact (proj1 (timeline_is_chronological (u "rtsp://cam/live") _ H)).
Defined.

(** X2: [undo] takes annotations back in the reverse order of their
    addition: after any number of calls of [add], as many calls of [undo]
    return the annotations added, last first, and leave the session exactly
    as it was before the first [add]. *)
Theorem undos_take_back_adds
  (adds : list (Env * pystr)) (s : Session.state) :
  let s1 := Timeline.calls (map Timeline.add_of adds) s in
  let items := map (Timeline.item_of s) adds in
  Session.annotations s1 = Session.annotations s ++ items /\
  map text items = map snd adds /\
  Timeline.undo_n (List.length adds) s1 = (map Some (rev items), s).
Proof.
  cbv zeta. rewrite adds_append. split; [reflexivity |]. split.
  - rewrite map_map. reflexivity.
  - rewrite <- (length_map (Timeline.item_of s) adds).
    rewrite undo_n_snoc. rewrite set_annotations_same. reflexivity.
Qed.

Example undos_sample :
  Timeline.undo_n 3
    (Timeline.calls (map Timeline.add_of Sample.calls0) Sample.session0)
  = ([Some {| t := 0; text := u "bell" |};
      Some {| t := 0; text := u "door" |}; None], Sample.session0).
Proof. reflexivity. Qed.

(* ------------------------------------------------------------------ *)
(** ** FrameGrabber: what a run of the loop publishes *)

Section AcquisitionRun.
Context {cv : OpenCV}.
Import FrameGrabber Acquired.

Lemma published_app (e1 e2 : list event) :
  published (e1 ++ e2) = published e1 ++ published e2.
Proof.
  induction e1 as [| [s | f | x] e1 IH]; simpl; rewrite ?IH; reflexivity.
Qed.



(** One pass: what it publishes, how long it sleeps, what it leaves. *)
Lemma run_iter_shape (a : Answers) (g : state) :
  desired_width (fst (run_iter a g)) = desired_width g /\
  reconnect_delay (fst (run_iter a g)) = reconnect_delay g /\
  _stop_evt (fst (run_iter a g)) = _stop_evt g /\
  match (if (is_open g || opened a)%bool then hands_over a else None) with
  | Some f =>
      published (snd (run_iter a g)) = [fit_width g f] /\
      sleeps (snd (run_iter a g)) = [] /\
      is_open (fst (run_iter a g)) = true /\
      _latest_bgr (fst (run_iter a g)) = Some (fit_width g f)
  | None =>
      published (snd (run_iter a g)) = [] /\
      sleeps (snd (run_iter a g)) = [reconnect_delay g] /\
      is_open (fst (run_iter a g)) = false /\
      _latest_bgr (fst (run_iter a g)) = _latest_bgr g
  end.
Proof.
  destruct g as [src d w c th st lb stt].
  destruct a as [o rk rf].
  unfold run_iter, read_step, _open_cap, is_open, hands_over. simpl.
  destruct c as [c |], o, rk, rf as [f |]; simpl; repeat split; reflexivity.
Qed.


Lemma run_keeps_frame (answers : list Answers) :
  forall (g : state) (f : Frame),
    get_latest_frame g = Some f ->
    exists f', get_latest_frame (fst (_run answers g)) = Some f'.
Proof.
  induction answers as [| a rest IH]; intros g f Hf.
  - exists f. exact Hf.
  - cbn [_run]. destruct (_stop_evt g); [exists f; exact Hf |].
    destruct (run_iter_shape a g) as [_ [_ [_ Hcase]]].
    destruct (run_iter a g) as [g1 ev1]. cbn [fst snd] in *.
    assert (H1 : exists f1, get_latest_frame g1 = Some f1).
    { unfold get_latest_frame in *.
      destruct (if (is_open g || opened a)%bool then hands_over a else None)
        as [f0 |]; destruct Hcase as [_ [_ [_ Hb]]]; rewrite Hb.
      - eexists. reflexivity.
      - exists f. exact Hf. }
    destruct H1 as [f1 H1]. destruct (IH g1 f1 H1) as [f' Hf'].
    destruct (_run rest g1) as [g2 ev2]. exists f'. exact Hf'.
Qed.

Lemma run_without_frames (answers : list Answers) :
  forall g : state,
    Forall (fun a => hands_over a = None) answers ->
    get_latest_frame (fst (_run answers g)) = get_latest_frame g /\
    published (snd (_run answers g)) = [].
Proof.
  induction answers as [| a rest IH]; intros g Hall.
  - split; reflexivity.
  - cbn [_run]. destruct (_stop_evt g); [split; reflexivity |].
    inversion Hall as [| ? ? Ha Hrest]; subst.
    destruct (run_iter_shape a g) as [_ [_ [_ Hcase]]].
    rewrite Ha in Hcase.
    destruct (run_iter a g) as [g1 ev1]. cbn [fst snd] in *.
    destruct (IH g1 Hrest) as [Hl Hp].
    destruct (_run rest g1) as [g2 ev2]. cbn [fst snd] in *.
    assert (Hc : published ev1 = [] /\ _latest_bgr g1 = _latest_bgr g).
    { destruct (is_open g || opened a)%bool;
        destruct Hcase as [H1 [_ [_ H2]]]; split; assumption. }
    destruct Hc as [Hp1 Hb1].
    rewrite published_app, Hp1, Hp. unfold get_latest_frame in *.
    rewrite Hl, Hb1. split; reflexivity.
Qed.

End AcquisitionRun.





(** X5: the acquisition loop never empties the frame slot: once a frame is
    there, [get_latest_frame] returns a frame after any further passes,
    failures included; and through passes in which the device hands over
    nothing, the slot keeps exactly what it held and nothing is published. *)
Theorem latest_frame_survives_outages
  (cv : OpenCV) (answers : list FrameGrabber.Answers) (g : FrameGrabber.state) :
  (forall f, FrameGrabber.get_latest_frame g = Some f ->
     exists f',
       FrameGrabber.get_latest_frame (fst (FrameGrabber._run answers g))
       = Some f') /\
  (Forall (fun a => Acquired.hands_over a = None) answers ->
   FrameGrabber.get_latest_frame (fst (FrameGrabber._run answers g))
   = FrameGrabber.get_latest_frame g /\
   Acquired.published (snd (FrameGrabber._run answers g)) = []).
Proof.
  split.
  - intros f Hf. apply run_keeps_frame with (f := f). exact Hf.
  - apply run_without_frames.
Qed.

Lemma latest_frame_survives_outages_witness :
  FrameGrabber.get_latest_frame Sample.grabber_with_frame
  = Some Sample.frame0 /\
  Forall (fun a => Acquired.hands_over a = None)
    [Sample.read_fails; Sample.open_fails] /\
  FrameGrabber.get_latest_frame
    (fst (@FrameGrabber._run Sample.obliging_codec
            [Sample.read_fails; Sample.open_fails] Sample.grabber_with_frame))
  = FrameGrabber.get_latest_frame Sample.grabber_with_frame /\
  exists f',
    FrameGrabber.get_latest_frame
      (fst (@FrameGrabber._run Sample.obliging_codec
              [Sample.read_fails; Sample.open_fails]
              Sample.grabber_with_frame)) = Some f'.
Proof.
  assert (Hf : FrameGrabber.get_latest_frame Sample.grabber_with_frame
               = Some Sample.frame0) by reflexivity.
  assert (Hn : Forall (fun a => Acquired.hands_over a = None)
                 [Sample.read_fails; Sample.open_fails])
    by (repeat constructor).
  pose proof (latest_frame_survives_outages Sample.obliging_codec
                [Sample.read_fails; Sample.open_fails]
                Sample.grabber_with_frame) as [Hkeep Hsame].
  split; [exact Hf |]. split; [exact Hn |].
  split; [exact (proj1 (Hsame Hn)) | exact (Hkeep _ Hf)].
Defined.

(** X6: between the passes of a loop started on a new grabber, the capture
    is open exactly when the status is [Streaming]: a failed read releases
    the capture, so that the next pass opens the source anew. *)
Theorem capture_open_iff_streaming
  (cv : OpenCV) (src : pystr) (delay : Q) (width : option Z)
  (answers : list FrameGrabber.Answers) :
  let g := fst (FrameGrabber._run answers (FrameGrabber.init src delay width)) in
  Acquired.is_open g = true <-> FrameGrabber.status g = FrameGrabber.Streaming.
Proof.
  cbv zeta.
  pose proof (run_settled answers _ (init_settled src delay width)) as [Hs _].
  unfold StatusTrace.settled in Hs. unfold Acquired.is_open, FrameGrabber.status.
  destruct (FrameGrabber._cap
              (fst (FrameGrabber._run answers
                      (FrameGrabber.init src delay width)))) as [c |].
  - rewrite Hs. split; reflexivity.
  - split; [discriminate |]. destruct Hs as [Hs | Hs]; rewrite Hs; discriminate.
Qed.


(** X7: [FrameGrabber.stop], in whatever state and whether or not the
    thread ends in time, sets the stop event and releases the capture,
    leaving the status and the latest frame as they were; it waits for the
    thread only if one was ever made; and a loop that looks at the grabber
    afterwards makes no pass. *)
Theorem stop_halts_acquisition
  (cv : OpenCV) (joined : bool) (g : FrameGrabber.state)
  (answers : list FrameGrabber.Answers) :
  let g1 := fst (FrameGrabber.stop joined g) in
  FrameGrabber._stop_evt g1 = true /\
  FrameGrabber._cap g1 = None /\
  FrameGrabber.status g1 = FrameGrabber.status g /\
  FrameGrabber.get_latest_frame g1 = FrameGrabber.get_latest_frame g /\
  snd (FrameGrabber.stop joined g)
  = match FrameGrabber._thread g with
    | Some _ => [JoinThread GrabberRun 2]
    | None => []
    end /\
  FrameGrabber._run answers g1 = (g1, []).
Proof.
  cbv zeta. destruct g as [src d w c th st lb stt].
  unfold FrameGrabber.stop, FrameGrabber._release_cap. simpl.
  destruct th as [alive |], c as [c |]; simpl;
    repeat split; destruct answers; reflexivity.
Qed.

(** X8: [FrameGrabber.start] launches the loop at most once: a second
    [start] changes nothing and launches nothing; after a [stop] that saw
    the thread end, [start] clears the stop event and launches the loop
    again, but after a [stop] whose join timed out on a live thread it does
    nothing and the stop event stays set. *)
Theorem start_launches_once (g : FrameGrabber.state) :
  FrameGrabber.start (fst (FrameGrabber.start g))
  = (fst (FrameGrabber.start g), []) /\
  (let g1 := fst (FrameGrabber.start (fst (FrameGrabber.stop true g))) in
   snd (FrameGrabber.start (fst (FrameGrabber.stop true g)))
   = [StartThread GrabberRun] /\
   FrameGrabber._stop_evt g1 = false /\
   FrameGrabber._thread g1 = Some true) /\
  (let g0 := fst (FrameGrabber.start g) in
   FrameGrabber.start (fst (FrameGrabber.stop false g0))
   = (fst (FrameGrabber.stop false g0), []) /\
   FrameGrabber._stop_evt (fst (FrameGrabber.stop false g0)) = true).
Proof.
  destruct g as [src d w c th st lb stt].
  unfold FrameGrabber.start, FrameGrabber.stop, FrameGrabber._release_cap.
  simpl.
  destruct th as [[|] |], c as [c |]; simpl; repeat split; reflexivity.
Qed.

(* ------------------------------------------------------------------ *)
(** ** Recorder: what a run of the write loop leaves *)

Section WriteLoop.
Import Recorder Recorded.

Lemma same_file_refl (w : VideoWriter) : same_file w w.
Proof. repeat split. Qed.

Lemma same_file_trans (w1 w2 w3 : VideoWriter) :
  same_file w1 w2 -> same_file w2 w3 -> same_file w1 w3.
Proof.
  unfold same_file. intros [A [B [C D]]] [A' [B' [C' D']]].
  repeat split; congruence.
Qed.

(** One pass: the recorder it leaves. *)
Lemma run_iter_recorder (k : Tick) (r : state) (next_t : Q) :
  let r1 := fst (fst (run_iter k r next_t)) in
  _stop_evt r1 = _stop_evt r /\ fps r1 = fps r /\ path r1 = path r /\
  _active r1 = _active r /\
  match FrameGrabber.get_latest_frame (grabber k) with
  | None => r1 = r
  | Some f =>
      written r1 = written r ++ [f] /\
      exists w1,
        _writer r1 = Some w1 /\
        same_file (match _writer r with
                   | Some w => w
                   | None => writer_for r f
                   end) w1
  end.
Proof.
  cbv zeta. unfold run_iter.
  destruct (FrameGrabber.get_latest_frame (grabber k)) as [f |].
  - destruct r as [fp od pre pa wr th se ac].
    unfold written, _open_writer_if_needed, write, writer_for. simpl.
    destruct wr as [w |]; simpl;
      match goal with
      | |- context [if ?c then _ else _] => destruct c
      end; simpl; repeat split; eexists; repeat split.
  - simpl. repeat split.
Qed.

Lemma loop_recorder (ticks : list Tick) :
  forall (r : state) (next_t : Q),
    _stop_evt r = false ->
    let r1 := fst (fst (loop ticks r next_t)) in
    written r1 = written r ++ seen ticks /\
    match _writer r, seen ticks with
    | None, [] => _writer r1 = None
    | Some w, _ => exists w1, _writer r1 = Some w1 /\ same_file w w1
    | None, f :: _ =>
        exists w1, _writer r1 = Some w1 /\ same_file (writer_for r f) w1
    end.
Proof.
  induction ticks as [| k rest IH]; intros r next_t Hstop; cbv zeta.
  - simpl. rewrite app_nil_r. split; [reflexivity |].
    destruct (_writer r) as [w |]; [| reflexivity].
    exists w. split; [reflexivity | apply same_file_refl].
  - cbn [loop seen]. rewrite Hstop.
    pose proof (run_iter_recorder k r next_t) as Hk. cbv zeta in Hk.
    destruct (run_iter k r next_t) as [[r1 n1] ef1]. cbn [fst snd] in Hk.
    destruct Hk as [Hs [Hfps [Hpath [_ Hcase]]]].
    rewrite Hstop in Hs.
    pose proof (IH r1 n1 Hs) as Hrest. cbv zeta in Hrest.
    destruct (loop rest r1 n1) as [[r2 n2] ef2]. cbn [fst snd] in *.
    destruct Hrest as [Hw Hwr].
    destruct (FrameGrabber.get_latest_frame (grabber k)) as [f |].
    + destruct Hcase as [Hw1 [w1 [Hs1 Hf1]]].
      rewrite Hw, Hw1, <- app_assoc. split; [reflexivity |].
      rewrite Hs1 in Hwr. destruct Hwr as [w2 [Hs2 Hf2]].
      destruct (_writer r) as [w |]; exists w2; split; try exact Hs2;
        apply same_file_trans with (w2 := w1); assumption.
    + subst r1. split; [exact Hw |].
      destruct (_writer r) as [w |]; [exact Hwr |].
      destruct (seen rest) as [| f fs]; exact Hwr.
Qed.


End WriteLoop.

(** X9: a run of the write loop writes one frame per pass that finds a
    frame in the grabber, the frame it finds, in the order of the passes (a
    frame the grabber still holds at the next pass is written again), and
    nothing in a pass that finds none. *)
Theorem write_loop_writes_what_it_sees
  (ticks : list Recorder.Tick) (r : Recorder.state) (next_t : Q)
  (Hrunning : Recorder._stop_evt r = false) :
  Recorded.written (fst (fst (Recorder.loop ticks r next_t)))
  = Recorded.written r ++ Recorded.seen ticks.
Proof. exact (proj1 (loop_recorder ticks r next_t Hrunning)). Qed.

Lemma write_loop_writes_what_it_sees_witness :
  Recorder._stop_evt Sample.recorder0 = false /\
  Recorded.written
    (fst (fst (Recorder.loop [Sample.tick0; Sample.tick1] Sample.recorder0 0)))
  = [Sample.frame0; Sample.frame0].
Proof.
  assert (H : Recorder._stop_evt Sample.recorder0 = false) by reflexivity.
  split; [exact H |].
  exact (write_loop_writes_what_it_sees [Sample.tick0; Sample.tick1]
           Sample.recorder0 0 H).
Defined.

(** X10: the write loop makes its writer once: a writer that is open stays
    on its path, codec, frame rate and frame size whatever the size of the
    frames that follow; without one, the first frame found decides the
    size, on the recorder's path and frame rate with the codec mp4v; and as
    long as no frame is found no writer is made. *)
Theorem writer_made_once
  (ticks : list Recorder.Tick) (r : Recorder.state) (next_t : Q)
  (Hrunning : Recorder._stop_evt r = false) :
  let r1 := fst (fst (Recorder.loop ticks r next_t)) in
  match Recorder._writer r, Recorded.seen ticks with
  | None, [] => Recorder._writer r1 = None
  | Some w, _ =>
      exists w1, Recorder._writer r1 = Some w1 /\ Recorded.same_file w w1
  | None, f :: _ =>
      exists w1,
        Recorder._writer r1 = Some w1 /\
        vw_path w1 = Recorder.path r /\ vw_fourcc w1 = u "mp4v" /\
        vw_fps w1 = Recorder.fps r /\ vw_size w1 = (cols f, rows f)
  end.
Proof.
  cbv zeta. pose proof (proj2 (loop_recorder ticks r next_t Hrunning)) as H.
  destruct (Recorder._writer r) as [w |]; [exact H |].
  destruct (Recorded.seen ticks) as [| f fs]; [exact H |].
  destruct H as [w1 [Hw Hsame]]. exists w1. split; [exact Hw | exact Hsame].
Qed.

Lemma writer_made_once_witness :
  Recorder._stop_evt Sample.recorder0 = false /\
  exists w1,
    Recorder._writer
      (fst (fst (Recorder.loop [Sample.tick0; Sample.tick1]
                   Sample.recorder0 0))) = Some w1 /\
    vw_path w1 = Recorder.path Sample.recorder0 /\
    vw_fourcc w1 = u "mp4v" /\
    vw_fps w1 = Recorder.fps Sample.recorder0 /\
    vw_size w1 = (cols Sample.frame0, rows Sample.frame0).
Proof.
  assert (H : Recorder._stop_evt Sample.recorder0 = false) by reflexivity.
  split; [exact H |].
  exact (writer_made_once [Sample.tick0; Sample.tick1] Sample.recorder0 0 H).
Defined.


(** X12: after a pass that writes a frame, the next scheduled time is the
    old one plus the period or the clock reading of the reset, and, the
    monotonic clock not going back, it is never before the time the pass
    read after the write: a stall leaves no debt of frames to catch up. *)
Theorem schedule_not_behind_clock
  (k : Recorder.Tick) (r : Recorder.state) (next_t : Q) (f : Frame)
  (Hframe : FrameGrabber.get_latest_frame (Recorder.grabber k) = Some f)
  (Hclock : Recorder.now_after_write k <= Recorder.now_on_reset k) :
  let next_t1 := snd (fst (Recorder.run_iter k r next_t)) in
  (next_t1 = next_t + Recorder.target_dt r \/
   next_t1 = Recorder.now_on_reset k) /\
  Recorder.now_after_write k <= next_t1.
Proof.
  cbv zeta. unfold Recorder.run_iter. rewrite Hframe.
  destruct (Qlt_le_dec 0
              (next_t + Recorder.target_dt r - Recorder.now_after_write k))
    as [Hahead | Hpast]; simpl.
  - split; [left; reflexivity | lra].
  - split; [right; reflexivity | exact Hclock].
Qed.

Lemma schedule_not_behind_clock_witness :
  FrameGrabber.get_latest_frame (Recorder.grabber Sample.tick1)
  = Some Sample.frame0 /\
  Recorder.now_after_write Sample.tick1 <= Recorder.now_on_reset Sample.tick1 /\
  Recorder.now_after_write Sample.tick1
  <= snd (fst (Recorder.run_iter Sample.tick1 Sample.recorder0 50)).
Proof.
  assert (Hf : FrameGrabber.get_latest_frame (Recorder.grabber Sample.tick1)
               = Some Sample.frame0) by reflexivity.
  assert (Hc : Recorder.now_after_write Sample.tick1
               <= Recorder.now_on_reset Sample.tick1) by apply Qle_refl.
  split; [exact Hf |]. split; [exact Hc |].
  exact (proj2 (schedule_not_behind_clock Sample.tick1 Sample.recorder0 50
                  Sample.frame0 Hf Hc)).
Defined.



(** X14: [Recorder.stop] does nothing on a recorder that is not active, so
    that a second [stop] is without effect; on an active recorder it sets
    the stop event, releases the writer if the loop made one (and only
    then), keeps the path, and a write loop that looks at the recorder
    afterwards makes no pass. *)
Theorem recorder_stop_once (r : Recorder.state) :
  Recorder.stop (fst (Recorder.stop r)) = (fst (Recorder.stop r), []) /\
  (Recorder.active r = false -> Recorder.stop r = (r, [])) /\
  (Recorder.active r = true ->
   let r1 := fst (Recorder.stop r) in
   Recorder._stop_evt r1 = true /\
   Recorder._writer r1 = None /\
   Recorder.path r1 = Recorder.path r /\
   (forall w, In (ReleaseWriter w) (snd (Recorder.stop r))
              <-> Recorder._writer r = Some w) /\
   (forall ticks next_t, Recorder.loop ticks r1 next_t = (r1, next_t, []))).
Proof.
  destruct r as [fp od pre pa wr th se ac].
  unfold Recorder.stop, Recorder.active. simpl. split; [| split].
  - destruct ac; reflexivity.
  - intros ->. reflexivity.
  - intros ->. simpl. repeat split; try (destruct ticks; reflexivity).
    + intro Hin. apply in_app_or in Hin. destruct Hin as [Hin | Hin].
      * destruct th; simpl in Hin; [| contradiction].
        destruct Hin as [Hin | []]. discriminate Hin.
      * destruct wr as [w0 |]; simpl in Hin; [| contradiction].
        destruct Hin as [Hin | []]. injection Hin as ->. reflexivity.
    + intros ->. apply in_or_app. right. left. reflexivity.
Qed.

Lemma recorder_stop_once_witness :
  let r := fst (fst (Recorder.loop [Sample.tick0]
                       (fst (Recorder.start Sample.env0 Sample.recorder0)) 0)) in
  Recorder.active r = true /\
  Recorder.active (fst (Recorder.stop r)) = false /\
  Recorder._writer (fst (Recorder.stop r)) = None /\
  Recorder.stop (fst (Recorder.stop r)) = (fst (Recorder.stop r), []).
Proof.
  cbv zeta.
  assert (Ha : Recorder.active
                 (fst (fst (Recorder.loop [Sample.tick0]
                              (fst (Recorder.start Sample.env0
                                      Sample.recorder0)) 0))) = true)
    by reflexivity.
  pose proof (recorder_stop_once
                (fst (fst (Recorder.loop [Sample.tick0]
                             (fst (Recorder.start Sample.env0
                                     Sample.recorder0)) 0))))
    as [Htwice [Hidle Hact]].
  split; [exact Ha |]. split; [reflexivity |].
  split; [exact (proj1 (proj2 (Hact Ha))) | exact Htwice].
Defined.


(* ------------------------------------------------------------------ *)
(** ** The handlers *)

Lemma lstrip_nil_iff (s : pystr) :
  lstrip s = [] <-> Forall (fun c => is_space c = true) s.
Proof.
  induction s as [| c s IH]; simpl.
  - split; [constructor | reflexivity].
  - destruct (is_space c) eqn:Hc.
    + rewrite IH. split.
      * intro H. constructor; assumption.
      * intro H. inversion H; assumption.
    + split; [discriminate |].
      intro H. inversion H as [| ? ? Hc' _]; subst. congruence.
Qed.

Lemma strip_nil_iff (s : pystr) :
  strip s = [] <-> Forall (fun c => is_space c = true) s.
Proof.
  rewrite <- lstrip_nil_iff. unfold strip, rstrip. split.
  - intro H. apply (f_equal (@rev N)) in H.
    rewrite rev_involutive in H. simpl in H.
    apply lstrip_nil_iff in H. apply Forall_rev in H.
    rewrite rev_involutive in H.
    destruct (lstrip s) as [| c r] eqn:Hl; [reflexivity |].
    inversion H as [| ? ? Hc _]; subst.
    assert (Hn : is_space c = false).
    { apply lstrip_head with (s := s). rewrite Hl. reflexivity. }
    congruence.
  - intros ->. reflexivity.
Qed.

Lemma strip_split (s : pystr) :
  exists p q,
    s = p ++ strip s ++ q /\
    Forall (fun c => is_space c = true) p /\
    Forall (fun c => is_space c = true) q.
Proof.
  destruct (lstrip_split s) as [p [Hp Hps]].
  destruct (rstrip_split (lstrip s)) as [q [Hq Hqs]].
  exists p, q. unfold strip. rewrite <- Hq, <- Hp. repeat split; assumption.
Qed.

(** X16: [annotate] turns down exactly the texts made of white space only
    (the empty text among them), with 400 "text is empty" and the
    application left as it was; every other text is answered with the
    annotation stored. *)
Theorem annotate_rejects_exactly_blank
  (e : Env) (raw : pystr) (a : App.state) :
  (App.annotate e (Some raw) a = (App.Failure 400 (u "text is empty"), a)
   <-> Forall (fun c => is_space c = true) raw) /\
  ((exists item a1, App.annotate e (Some raw) a = (App.Item item, a1))
   <-> exists c, In c raw /\ is_space c = false).
Proof.
  rewrite <- strip_nil_iff.
  assert (Hcase : (strip raw = [] /\
                   App.annotate e (Some raw) a
                   = (App.Failure 400 (u "text is empty"), a)) \/
                  (strip raw <> [] /\
                   exists item a1,
                     App.annotate e (Some raw) a = (App.Item item, a1))).
  { unfold App.annotate. destruct (strip raw) as [| c r].
    - left. split; reflexivity.
    - right. split; [discriminate |]. eexists. eexists. reflexivity. }
  assert (Hsome : strip raw <> [] <-> exists c, In c raw /\ is_space c = false).
  { rewrite strip_nil_iff. split.
    - intro Hn. apply neg_Forall_Exists_neg in Hn.
      + apply Exists_exists in Hn. destruct Hn as [c [Hin Hc]].
        exists c. split; [exact Hin |]. destruct (is_space c); congruence.
      + intro c. destruct (is_space c); [left | right]; congruence.
    - intros [c [Hin Hc]] Hall. rewrite Forall_forall in Hall.
      specialize (Hall c Hin). congruence. }
  split.
  - destruct Hcase as [[Hs Ha] | [Hs [item [a1 Ha]]]].
    + split; intro; assumption.
    + split; [| contradiction]. intro H. rewrite Ha in H. discriminate H.
  - rewrite <- Hsome. destruct Hcase as [[Hs Ha] | [Hs Ha]].
    + split; [| contradiction].
      intros [item [a1 H]]. rewrite Ha in H. discriminate H.
    + split; intro; assumption.
Qed.

(** X17: the text [annotate] stores is the submitted text without a run of
    white space at its head and one at its tail: nothing else is removed,
    white space inside the text is kept. *)
Theorem annotate_keeps_inner_text
  (e : Env) (raw : pystr) (a a1 : App.state) (item : Annotation)
  (Hstored : App.annotate e (Some raw) a = (App.Item item, a1)) :
  exists p q,
    raw = p ++ text item ++ q /\
    Forall (fun c => is_space c = true) p /\
    Forall (fun c => is_space c = true) q.
Proof.
  unfold App.annotate in Hstored.
  destruct (strip raw) as [| c r] eqn:Hs; [discriminate |].
  injection Hstored as Hitem _. subst item. cbn [text].
  rewrite <- Hs. apply strip_split.
Qed.

Lemma annotate_keeps_inner_text_witness :
  App.annotate Sample.env0 (Some (u "  door opens ")) Sample.app0
  = (App.Item {| t := 0; text := u "door opens" |},
     snd (App.annotate Sample.env0 (Some (u "  door opens ")) Sample.app0)) /\
  exists p q,
    u "  door opens " = p ++ u "door opens" ++ q /\
    Forall (fun c => is_space c = true) p /\
    Forall (fun c => is_space c = true) q.
Proof.
  assert (H : App.annotate Sample.env0 (Some (u "  door opens ")) Sample.app0
              = (App.Item {| t := 0; text := u "door opens" |},
                 snd (App.annotate Sample.env0 (Some (u "  door opens "))
                        Sample.app0))) by reflexivity.
  split; [exact H |].
  exact (annotate_keeps_inner_text Sample.env0 (u "  door opens ")
           Sample.app0 _ _ H).
Defined.

(** X18: [POST /start], in whatever state the application is, answers with
    the new start stamp and the path ./recording_<stamp>.mp4, makes the
    directory and launches one write loop, empties the annotation list and
    sets the elapsed time to 0 at that reading of the clock; it stops no
    recorder: one the session held is dropped as it is. *)
Theorem start_session_always_launches (e : Env) (a : App.state) :
  let path := u "./recording_" ++ local_stamp e ++ u ".mp4" in
  let '(resp, a1, ef) := App.start_session e a in
  resp = App.Started (Some (utc_iso e)) (Some path) /\
  ef = [MakeDirs (u "."); StartThread RecorderRun] /\
  App.grabber a1 = App.grabber a /\
  Session.annotations (App.session a1) = [] /\
  Session.source (App.session a1) = Session.source (App.session a) /\
  Session.recording_path (App.session a1) = Some path /\
  (exists r, Session.recorder (App.session a1) = Some r /\
             Recorder.active r = true /\ Recorder._writer r = None /\
             Recorder.path r = Some path) /\
  Session.elapsed e (App.session a1) == 0.
Proof.
  cbv zeta. unfold App.start_session, Session.start, Recorder.start. simpl.
  repeat split.
  - eexists. repeat split.
  - unfold Session.elapsed. simpl. rewrite py_max_Qmax.
    apply Q.max_l. lra.
Qed.


(** X20: [GET /status] reports as [count] the length of the annotation
    list it returns, and [recording] exactly when the session holds a
    recorder that is active: it is true after [POST /start], with no
    annotation left, and false after [POST /stop], which keeps the
    annotations and the recording path; an annotation that [POST /annotate]
    accepts raises the count by one and is the last of the list, one it
    turns down leaves the count. *)
Theorem status_reports_session
  (e e0 : Env) (joined : bool) (submitted : option pystr) (a : App.state) :
  let b := App.status e a in
  let started := snd (fst (App.start_session e0 a)) in
  let stopped := snd (fst (App.stop_and_quit e0 joined a)) in
  let noted := snd (App.annotate e0 submitted a) in
  App.sb_count b = List.length (App.sb_annotations b) /\
  (App.sb_recording b = true <->
   exists r, Session.recorder (App.session a) = Some r /\
             Recorder.active r = true) /\
  (App.sb_recording (App.status e started) = true /\
   App.sb_count (App.status e started) = O /\
   App.sb_started_at (App.status e started) = Some (utc_iso e0)) /\
  (App.sb_recording (App.status e stopped) = false /\
   App.sb_annotations (App.status e stopped) = App.sb_annotations b /\
   App.sb_recording_path (App.status e stopped) = App.sb_recording_path b) /\
  match fst (App.annotate e0 submitted a) with
  | App.Item item =>
      App.sb_count (App.status e noted) = S (App.sb_count b) /\
      App.sb_annotations (App.status e noted) = App.sb_annotations b ++ [item]
  | _ => App.status e noted = b
  end.
Proof.
  cbv zeta. split; [reflexivity |]. split.
  { unfold App.status. simpl.
    destruct (Session.recorder (App.session a)) as [r |].
    - destruct (Recorder.active r) eqn:Hr.
      + split; [intros _; exists r; split; [reflexivity | exact Hr] | reflexivity].
      + split; [discriminate |].
        intros [r' [Heq Hr']]. injection Heq as <-. congruence.
    - split; [discriminate |]. intros [r' [Heq _]]. discriminate Heq. }
  split.
  { unfold App.start_session, Session.start, Recorder.start, App.status.
    simpl. repeat split. }
  split.
  { unfold App.stop_and_quit, App.status.
    destruct a as [g s fp]. destruct s as [src st0 t0 ann rec rp]. simpl.
    destruct (FrameGrabber.stop joined g) as [g1 ef2].
    destruct rec as [r |]; simpl; [| repeat split].
    unfold Recorder.active. destruct (Recorder._active r) eqn:Hact.
    - pose proof (stop_leaves_inactive r) as Hin.
      unfold Recorder.active in Hin.
      destruct (Recorder.stop r) as [r1 ef1]. simpl in *.
      rewrite Hin. repeat split.
    - simpl. rewrite Hact. repeat split. }
  unfold App.annotate.
  destruct (strip match submitted with Some v => v | None => [] end)
    as [| c r]; simpl.
  - reflexivity.
  - rewrite length_app. simpl. split; [lia | reflexivity].
Qed.

(** X21: as long as the device has handed over no frame since the
    application was created, whatever the passes of the loop were and
    whatever the encoder, [GET /snap.jpg] answers 503 "no frame yet" and a
    pass of the stream generator yields nothing and sleeps 50 ms. *)
Theorem snap_unavailable_until_first_frame
  (cv : OpenCV) (src : pystr) (width : option Z) (fps0 : Q)
  (answers : list FrameGrabber.Answers)
  (Hnone : Forall (fun a => Acquired.hands_over a = None) answers) :
  let a0 := fst (App.create_app src width fps0) in
  let a := {| App.grabber := fst (FrameGrabber._run answers (App.grabber a0));
              App.session := App.session a0; App.fps := App.fps a0 |} in
  App.snap a = App.Unavailable 503 (u "no frame yet") /\
  App.gen [App.grabber a] = [App.Wait (Sleep (1 # 20))].
Proof.
  cbv zeta.
  destruct (run_without_frames answers
              (App.grabber (fst (App.create_app src width fps0))) Hnone)
    as [Hl _].
  unfold App.snap, App.gen, App.gen_iter, FrameGrabber.get_latest_jpeg.
  simpl. simpl in Hl. rewrite Hl. split; reflexivity.
Qed.

Lemma snap_unavailable_until_first_frame_witness :
  Forall (fun a => Acquired.hands_over a = None)
    [Sample.open_fails; Sample.read_fails] /\
  @App.snap Sample.obliging_codec
    {| App.grabber :=
         fst (@FrameGrabber._run Sample.obliging_codec
                [Sample.open_fails; Sample.read_fails]
                (App.grabber Sample.app0));
       App.session := App.session Sample.app0;
       App.fps := App.fps Sample.app0 |}
  = App.Unavailable 503 (u "no frame yet").
Proof.
  assert (H : Forall (fun a => Acquired.hands_over a = None)
                [Sample.open_fails; Sample.read_fails])
    by (repeat constructor).
  split; [exact H |].
  exact (proj1 (snap_unavailable_until_first_frame Sample.obliging_codec
                  (u "rtsp://cam/live") (Some 960%Z) 25 _ H)).
Defined.

Lemma firstn_length_app {A : Type} (l l' : list A) :
  firstn (List.length l) (l ++ l') = l.
Proof.
  induction l as [| x l IH]; simpl; [reflexivity | rewrite IH; reflexivity].
Qed.

(** X22: the stream generator yields one part per poll at which the
    grabber has a frame that the encoder accepts, in the order of the
    polls, and sleeps once in every pass; a part is the picture behind 37
    bytes of boundary and header and before a line end, so that the picture
    is read back from the part. *)
Theorem stream_parts_carry_snapshots
  (cv : OpenCV) (polls : list FrameGrabber.state) (jpg : list N) :
  Streamed.yielded (App.gen polls) = map App.part (Streamed.encoded polls) /\
  List.length (Streamed.waits (App.gen polls)) = List.length polls /\
  List.length (App.part jpg) = (39 + List.length jpg)%nat /\
  firstn 9 (App.part jpg) = App.sep /\
  firstn (List.length jpg) (skipn 37 (App.part jpg)) = jpg /\
  skipn (37 + List.length jpg) (App.part jpg) = App.crlf.
Proof.
  split; [| split].
  - unfold App.gen. induction polls as [| g rest IH]; [reflexivity |].
    simpl. unfold App.gen_iter at 1.
    destruct (FrameGrabber.get_latest_jpeg 80 g) as [b |]; simpl;
      rewrite IH; reflexivity.
  - unfold App.gen. induction polls as [| g rest IH]; [reflexivity |].
    simpl. unfold App.gen_iter at 1.
    destruct (FrameGrabber.get_latest_jpeg 80 g) as [b |]; simpl;
      rewrite IH; reflexivity.
  - assert (Hshape : forall j, App.part j
              = (App.sep ++ u "Content-Type: image/jpeg" ++ App.crlf ++ App.crlf)
                ++ j ++ App.crlf).
    { intro j. unfold App.part. rewrite <- !app_assoc. reflexivity. }
    assert (Hlen : List.length
                     (App.sep ++ u "Content-Type: image/jpeg"
                      ++ App.crlf ++ App.crlf) = 37%nat) by reflexivity.
    split; [| split; [| split]].
    + rewrite Hshape, length_app, Hlen, length_app. simpl. lia.
    + reflexivity.
    + rewrite Hshape.
      set (hdr := App.sep ++ u "Content-Type: image/jpeg"
                  ++ App.crlf ++ App.crlf) in *.
      rewrite <- Hlen, skipn_app, Nat.sub_diag, skipn_all.
      simpl. apply firstn_length_app.
    + rewrite Hshape.
      set (hdr := App.sep ++ u "Content-Type: image/jpeg"
                  ++ App.crlf ++ App.crlf) in *.
      rewrite <- Hlen, <- length_app, app_assoc.
      rewrite skipn_app, Nat.sub_diag, skipn_all. reflexivity.
Qed.

Example stream_of_two_polls :
  @App.gen Sample.obliging_codec [Sample.grabber0; Sample.grabber_with_frame]
  = [App.Wait (Sleep (1 # 20));
     App.Yield (u "--frame" ++ [13; 10]%N ++ u "Content-Type: image/jpeg"
                ++ [13; 10; 13; 10]%N ++ [255; 216]%N ++ [13; 10]%N);
     App.Wait (Sleep (1 # 25))].
Proof. reflexivity. Qed.
